(** * Seinfeld script generator: retrieval tool, crew runner and CLI entry point

    A shallow embedding of
    [seinfeld_script_generator/tools/couchbase_rag.py],
    [seinfeld_script_generator/crew.py] and [main.py].

    Python [str] values are sequences of Unicode code points ([list N]);
    exceptions are an explicit [outcome]; calls that leave the process
    (Couchbase SDK, embedding client, CrewAI, the terminal, the file system)
    are fields of a [World] record, and every such call is recorded in an
    event trace so that "is never called" is a statement about the trace. *)

From Stdlib Require Import List String Ascii NArith ZArith Bool Lia.
From Stdlib Require Import DecimalString.
Import ListNotations.

Set Implicit Arguments.
Open Scope string_scope.
Open Scope list_scope.

(* ================================================================== *)
(** ** Python strings *)

Module Py.

Definition char := N.
Definition pystr := list char.

(** A source-code literal, read as code points (all literals of the
    program are ASCII). *)
Definition lit (s : string) : pystr :=
  List.map N_of_ascii (list_ascii_of_string s).

(** [str.isspace] on one code point: the table of CPython's
    [_PyUnicode_IsWhitespace]. *)
Definition isspace (c : char) : bool :=
  ((9 <=? c) && (c <=? 13) || (28 <=? c) && (c <=? 32)
   || (c =? 133) || (c =? 160) || (c =? 5760)
   || (8192 <=? c) && (c <=? 8202)
   || (c =? 8232) || (c =? 8233) || (c =? 8239) || (c =? 8287)
   || (c =? 12288))%N.

Definition eqb (a b : pystr) : bool :=
  if list_eq_dec N.eq_dec a b then true else false.

(** [s.startswith(p)] *)
Fixpoint startswith (p s : pystr) : bool :=
  match p, s with
  | [], _ => true
  | _ :: _, [] => false
  | a :: p', b :: s' => (a =? b)%N && startswith p' s'
  end.

(** [p in s] *)
Fixpoint contains (p s : pystr) : bool :=
  startswith p s ||
  match s with
  | [] => false
  | _ :: s' => contains p s'
  end.

(** [s.replace(old, new)] for a non-empty [old]: a left-to-right scan
    that replaces each occurrence found and resumes after it.  [skip]
    counts the characters of a matched occurrence still to be dropped. *)
Fixpoint replace_from (old new : pystr) (skip : nat) (s : pystr) : pystr :=
  match s with
  | [] => []
  | c :: s' =>
      match skip with
      | S k => replace_from old new k s'
      | O =>
          if startswith old s
          then new ++ replace_from old new (List.length old - 1) s'
          else c :: replace_from old new 0 s'
      end
  end.

Definition replace (old new s : pystr) : pystr := replace_from old new 0 s.

(** [s.split()] with no separator: maximal runs of non-whitespace.
    [tok] holds the characters of the token being read. *)
Fixpoint split_from (tok : pystr) (s : pystr) : list pystr :=
  match s with
  | [] => match tok with [] => [] | _ => [tok] end
  | c :: s' =>
      if isspace c
      then match tok with
           | [] => split_from [] s'
           | _ => tok :: split_from [] s'
           end
      else split_from (tok ++ [c]) s'
  end.

Definition split (s : pystr) : list pystr := split_from [] s.

(** [s.strip()] *)
Fixpoint lstrip (s : pystr) : pystr :=
  match s with
  | [] => []
  | c :: s' => if isspace c then lstrip s' else s
  end.

Definition rstrip (s : pystr) : pystr := rev (lstrip (rev s)).
Definition strip (s : pystr) : pystr := rstrip (lstrip s).

(** [str(n)] for a non-negative integer. *)
Definition str_of_nat (n : nat) : pystr :=
  lit (NilZero.string_of_uint (Nat.to_uint n)).

(** Truthiness of a string: [if s]. *)
Definition truthy (s : pystr) : bool :=
  match s with [] => false | _ => true end.

Definition nl : pystr := [10%N].

(** The lines of a multi-line literal, joined by newlines. *)
Fixpoint unlines (ls : list string) : pystr :=
  match ls with
  | [] => []
  | [l] => lit l
  | l :: ls' => lit l ++ nl ++ unlines ls'
  end.

(** Exceptions that derive from [Exception], with their [str()]. *)
Inductive exn_kind :=
| IndexError | AttributeError | ImportError | ValidationError
| EOFError | OtherException.

Record exn := Exn { exn_kind_of : exn_kind; exn_str : pystr }.

Inductive outcome (A : Type) :=
| Return (a : A)
| Raise (e : exn).
Arguments Return {A} a.
Arguments Raise {A} e.

(** [l[0]] *)
Definition index0 {A} (l : list A) : outcome A :=
  match l with
  | x :: _ => Return x
  | [] => Raise (Exn IndexError (lit "list index out of range"))
  end.

End Py.
Import Py.

Definition blank : string := EmptyString.

(* ================================================================== *)
(** ** tools/couchbase_rag.py *)

(** The string bound to ["default"] in [_get_demo_response], line by
    line (the literal starts and ends with a newline). *)
Definition demo_default_lines : list string :=
  blank ::
  "## Seinfeld Script Search Results (Demo Mode)" ::
  "**Note:** Running in demo mode - Couchbase connection not available." ::
  blank ::
  "### Example 1 - Jerry's Apartment" ::
  "**Context:** Classic observational comedy setup" ::
  blank ::
  "```" ::
  "JERRY: See, that's the thing about [topic]. Everyone acts like it's normal, " ::
  "but have you ever really thought about it? I mean, really thought about it?" ::
  blank ::
  "GEORGE: What's there to think about? It's [topic]!" ::
  blank ::
  "JERRY: Exactly! That's my point. We just accept it." ::
  blank ::
  "GEORGE: (getting agitated) Well what am I supposed to do, Jerry? Question " ::
  "everything? I've got enough problems!" ::
  "```" ::
  blank ::
  "### Example 2 - Monk's Coffee Shop" ::
  "**Context:** George's paranoid interpretation" ::
  blank ::
  "```" ::
  "GEORGE: You know what I think? I think this whole [topic] thing is a conspiracy." ::
  blank ::
  "ELAINE: George, not everything is a conspiracy." ::
  blank ::
  "GEORGE: That's exactly what they want you to think!" ::
  blank ::
  "KRAMER: (sliding into booth) I'm telling you, I've been saying this for years. " ::
  "[Topic]! It's all connected!" ::
  blank ::
  "JERRY: Here we go." ::
  "```" ::
  blank ::
  "### Example 3 - Jerry's Apartment" ::
  "**Context:** Kramer's enthusiastic scheme" ::
  blank ::
  "```" ::
  "KRAMER: Jerry! Jerry! You're not gonna believe this!" ::
  blank ::
  "JERRY: What now?" ::
  blank ::
  "KRAMER: I've figured out the whole [topic] situation. It's genius!" ::
  blank ::
  "JERRY: Kramer, the last time you had a genius idea, you ended up in the " ::
  "Hudson River." ::
  blank ::
  "KRAMER: That was different. That was a miscalculation. This? This is foolproof!" ::
  blank ::
  "JERRY: (to camera) Nothing's foolproof when it comes to Kramer." ::
  "```" ::
  blank ::
  "---" ::
  "Use these examples as templates for the style, rhythm, and character voices." ::
  blank :: nil.

Definition demo_default : pystr := unlines demo_default_lines.

(** *** Effects: a state-and-exception monad

    A computation reads and updates a state and either returns a value
    or raises; a raise keeps the state reached so far, as assignments to
    [self] made before a Python exception persist. *)

Section StateExn.
Variable St : Type.

Definition M (A : Type) : Type := St -> outcome A * St.

Definition ret {A} (a : A) : M A := fun st => (Return a, st).

Definition bind {A B} (c : M A) (k : A -> M B) : M B :=
  fun st =>
    match c st with
    | (Return a, st') => k a st'
    | (Raise e, st') => (Raise e, st')
    end.

Definition lift {A} (o : outcome A) : M A := fun st => (o, st).

Definition get : M St := fun st => (Return st, st).

Definition modify (f : St -> St) : M unit := fun st => (Return tt, f st).

(** [try: c except Exception as e: h e] *)
Definition try_except {A} (c : M A) (h : exn -> M A) : M A :=
  fun st =>
    match c st with
    | (Return a, st') => (Return a, st')
    | (Raise e, st') => h e st'
    end.
End StateExn.

Arguments ret {St A} a.
Arguments lift {St A} o.
Arguments get {St}.

Notation "x <- c ;; k" := (bind c (fun x => k))
  (at level 61, c at next level, right associativity).
Notation "c ;;; k" := (bind c (fun _ => k))
  (at level 61, right associativity).

(** *** The outside world *)

(** Opaque Python objects handed back by the SDKs. *)
Definition obj := N.

(** One search hit, as [_format_results] reads it: a mapping with the
    optional keys ["metadata"], ["text"] and ["score"].  The score is kept
    as its [str()] rendering. *)
Record result := {
  r_metadata : option (list (pystr * pystr));
  r_text : option pystr;
  r_score : option pystr
}.

Inductive event :=
| EvImport
| EvCluster (connection_string : option pystr)
| EvWaitUntilReady
| EvBucket (name : option pystr)
| EvScope (name : option pystr)
| EvCollection (name : option pystr)
| EvOpenAIEmbeddings
| EvVectorStore
| EvSimilaritySearch (query : pystr) (k : Z) (fields : list pystr)
| EvPrint (msg : pystr)
| EvMkdir (path : pystr)   (* the directory made, or the file it is made for *)
| EvKickoff (theme : pystr)
| EvInput
| EvWriteFile (path : pystr) (content : pystr).

Definition trace := list event.

(** Every call into a library or the operating system.  The search may
    answer differently from one call to the next, so it also receives
    the number of events seen so far. *)
Record World := {
  import_sdk : outcome unit;
  getenv : pystr -> option pystr;
  PasswordAuthenticator : option pystr -> option pystr -> outcome obj;
  ClusterOptions : obj -> outcome obj;
  Cluster : option pystr -> obj -> outcome obj;
  wait_until_ready : obj -> outcome unit;
  bucket : obj -> option pystr -> outcome obj;
  scope : obj -> option pystr -> outcome obj;
  collection : obj -> option pystr -> outcome obj;
  OpenAIEmbeddings :
    option pystr -> option pystr -> option pystr -> outcome obj;
  CouchbaseQueryVectorStore :
    obj -> obj -> option pystr -> option pystr -> option pystr -> outcome obj;
  similarity_search :
    nat -> obj -> pystr -> Z -> list pystr -> outcome (list result);
  mkdir_output : outcome unit;
  crew_kickoff : pystr -> outcome pystr;
  import_crew : outcome unit;
  input : outcome pystr;
  mkdir_parents : pystr -> outcome unit;
  write_file : pystr -> pystr -> outcome unit
}.

(** *** SeinfeldSearchInput *)

Record SeinfeldSearchInput := {
  query : pystr;
  num_results : Z
}.

(** Validation of the tool arguments against the schema: [query] is
    required, [num_results] defaults to 5 and carries [ge=1], [le=10]. *)
Definition SeinfeldSearchInput_validate
    (q : pystr) (n : option Z) : outcome SeinfeldSearchInput :=
  match n with
  | None => Return {| query := q; num_results := 5 |}
  | Some k =>
      if (1 <=? k)%Z
      then if (k <=? 10)%Z
           then Return {| query := q; num_results := k |}
           else Raise (Exn ValidationError
                  (lit "Input should be less than or equal to 10"))
      else Raise (Exn ValidationError
             (lit "Input should be greater than or equal to 1"))
  end.

(** *** SeinfeldRAGTool *)

Record SeinfeldRAGTool := {
  _cluster : option obj;
  _bucket : option obj;
  _scope : option obj;
  _collection : option obj;
  _openai_client : option obj;
  _embeddings : option obj;
  _vector_store : option obj
}.

(** The class-level defaults of the private attributes. *)
Definition fresh_tool : SeinfeldRAGTool :=
  {| _cluster := None; _bucket := None; _scope := None;
     _collection := None; _openai_client := None;
     _embeddings := None; _vector_store := None |}.

Definition set_cluster (v : obj) (t : SeinfeldRAGTool) :=
  {| _cluster := Some v; _bucket := _bucket t; _scope := _scope t;
     _collection := _collection t; _openai_client := _openai_client t;
     _embeddings := _embeddings t; _vector_store := _vector_store t |}.
Definition set_bucket (v : obj) (t : SeinfeldRAGTool) :=
  {| _cluster := _cluster t; _bucket := Some v; _scope := _scope t;
     _collection := _collection t; _openai_client := _openai_client t;
     _embeddings := _embeddings t; _vector_store := _vector_store t |}.
Definition set_scope (v : obj) (t : SeinfeldRAGTool) :=
  {| _cluster := _cluster t; _bucket := _bucket t; _scope := Some v;
     _collection := _collection t; _openai_client := _openai_client t;
     _embeddings := _embeddings t; _vector_store := _vector_store t |}.
Definition set_collection (v : obj) (t : SeinfeldRAGTool) :=
  {| _cluster := _cluster t; _bucket := _bucket t; _scope := _scope t;
     _collection := Some v; _openai_client := _openai_client t;
     _embeddings := _embeddings t; _vector_store := _vector_store t |}.
Definition set_embeddings (v : obj) (t : SeinfeldRAGTool) :=
  {| _cluster := _cluster t; _bucket := _bucket t; _scope := _scope t;
     _collection := _collection t; _openai_client := _openai_client t;
     _embeddings := Some v; _vector_store := _vector_store t |}.
Definition set_vector_store (v : obj) (t : SeinfeldRAGTool) :=
  {| _cluster := _cluster t; _bucket := _bucket t; _scope := _scope t;
     _collection := _collection t; _openai_client := _openai_client t;
     _embeddings := _embeddings t; _vector_store := Some v |}.

(** The tool together with the trace of outside calls made so far. *)
Definition RagSt : Type := SeinfeldRAGTool * trace.

Definition emit (e : event) : M RagSt unit :=
  modify (fun st : RagSt => (fst st, snd st ++ [e])).

Definition print (msg : pystr) : M RagSt unit := emit (EvPrint msg).

(** An outside call: recorded, then its outcome taken. *)
Definition call {A} (e : event) (o : outcome A) : M RagSt A :=
  emit e ;;; lift o.

Definition assign (f : SeinfeldRAGTool -> SeinfeldRAGTool) : M RagSt unit :=
  modify (fun st : RagSt => (f (fst st), snd st)).

(** The body of the [try] block of [_initialize_connections]. *)
Definition connect (w : World) : M RagSt unit :=
    (call EvImport (import_sdk w) ;;;
     let connection_string := getenv w (lit "CB_CONNECTION_STRING") in
     let username := getenv w (lit "CB_USERNAME") in
     let password := getenv w (lit "CB_PASSWORD") in
     let bucket_name := getenv w (lit "CB_BUCKET") in
     let scope_name := getenv w (lit "CB_SCOPE") in
     let collection_name := getenv w (lit "CB_COLLECTION") in
     auth <- lift (PasswordAuthenticator w username password) ;;
     options <- lift (ClusterOptions w auth) ;;
     cluster <- call (EvCluster connection_string)
                     (Cluster w connection_string options) ;;
     assign (set_cluster cluster) ;;;
     call EvWaitUntilReady (wait_until_ready w cluster) ;;;
     b <- call (EvBucket bucket_name) (bucket w cluster bucket_name) ;;
     assign (set_bucket b) ;;;
     sc <- call (EvScope scope_name) (scope w b scope_name) ;;
     assign (set_scope sc) ;;;
     col <- call (EvCollection collection_name)
                 (collection w sc collection_name) ;;
     assign (set_collection col) ;;;
     emb <- call EvOpenAIEmbeddings
              (OpenAIEmbeddings w
                 (getenv w (lit "EMBEDDING_API_KEY"))
                 (getenv w (lit "CAPELLA_AI_ENDPOINT"))
                 (getenv w (lit "EMBEDDING_MODEL_NAME"))) ;;
     assign (set_embeddings emb) ;;;
     vs <- call EvVectorStore
             (CouchbaseQueryVectorStore w cluster emb
                bucket_name scope_name collection_name) ;;
     assign (set_vector_store vs)).

Definition _initialize_connections (w : World) : M RagSt unit :=
  try_except (connect w)
    (fun e =>
       print (lit "Warning: Could not initialize Couchbase connection: "
              ++ exn_str e) ;;;
       print (lit "The tool will operate in demo mode with sample responses.")).

(** [SeinfeldRAGTool()]: the attributes take their defaults, then
    [_initialize_connections] runs. *)
Definition __init__ (w : World) (tr : trace) : outcome unit * RagSt :=
  _initialize_connections w (fresh_tool, tr).

Definition search_fields : list pystr :=
  [lit "Character"; lit "EpisodeNo"; lit "Season"].

Definition _vector_search (w : World) (query : pystr) (num_results : Z)
  : M RagSt (list result) :=
  try_except
    (st <- get ;;
     match _vector_store (fst st) with
     | None =>
         lift (Raise (Exn AttributeError
           (lit "'NoneType' object has no attribute 'similarity_search'")))
     | Some vs =>
         call (EvSimilaritySearch query num_results search_fields)
              (similarity_search w (List.length (snd st)) vs
                 query num_results search_fields)
     end)
    (fun e =>
       print (lit "Vector search error: " ++ exn_str e) ;;;
       ret []).

Fixpoint dict_get (k : pystr) (d : list (pystr * pystr)) : option pystr :=
  match d with
  | [] => None
  | (k', v) :: d' => if Py.eqb k k' then Some v else dict_get k d'
  end.

Definition or_default {A} (o : option A) (d : A) : A :=
  match o with Some a => a | None => d end.

(** The text appended for one hit, numbered [i]. *)
Definition format_one (i : nat) (r : result) : pystr :=
  lit "### Example " ++ str_of_nat i ++ nl
  ++ (let metadata := or_default (r_metadata r) [] in
      match metadata with
      | [] => []
      | _ =>
          (match dict_get (lit "title") metadata with
           | Some t => lit "**Episode:** " ++ t ++ nl
           | None => []
           end)
          ++ (match dict_get (lit "description") metadata with
              | Some d => lit "**Context:** " ++ d ++ nl
              | None => []
              end)
      end)
  ++ (let text := or_default (r_text r) [] in
      if truthy text
      then lit "**Dialogue:**" ++ nl ++ lit "```" ++ nl
           ++ firstn 1000 text
           ++ (if Nat.ltb 1000 (List.length text) then lit "..." else [])
           ++ nl ++ lit "```" ++ nl
      else [])
  ++ lit "**Relevance Score:** " ++ or_default (r_score r) (lit "N/A")
  ++ nl ++ nl
  ++ lit "---" ++ nl ++ nl.

Fixpoint format_loop (i : nat) (results : list result) : pystr :=
  match results with
  | [] => []
  | r :: rest => format_one i r ++ format_loop (S i) rest
  end.

Definition _format_results (results : list result) (query : pystr) : pystr :=
  lit "## Seinfeld Script Search Results" ++ nl
  ++ lit "**Query:** " ++ query ++ nl
  ++ lit "**Found " ++ str_of_nat (List.length results)
  ++ lit " relevant examples:**" ++ nl ++ nl
  ++ format_loop 1 results.

Definition _get_demo_response (query : pystr) : outcome pystr :=
  match (if truthy query then index0 (split query)
         else Return (lit "this")) with
  | Return topic => Return (replace (lit "[topic]") topic demo_default)
  | Raise e => Raise e
  end.

Definition is_none {A} (o : option A) : bool :=
  match o with None => true | Some _ => false end.

Definition _run (w : World) (query : pystr) (num_results : Z)
  : M RagSt pystr :=
  st <- get ;;
  if is_none (_cluster (fst st)) || is_none (_openai_client (fst st))
  then lift (_get_demo_response query)
  else
    results <- _vector_search w query num_results ;;
    match results with
    | [] => lift (_get_demo_response query)
    | _ => ret (_format_results results query)
    end.

(** A tool call as an agent issues it: the arguments are validated
    against [args_schema], then [_run] receives the validated fields. *)
Definition invoke (w : World) (q : pystr) (n : option Z) : M RagSt pystr :=
  args <- lift (SeinfeldSearchInput_validate q n) ;;
  _run w (query args) (num_results args).

(** The calls of one tool instance, in order.  A call that raises leaves
    the instance usable for the next one. *)
Fixpoint run_calls (w : World) (calls : list (pystr * Z)) (st : RagSt)
  : list (outcome pystr) * RagSt :=
  match calls with
  | [] => ([], st)
  | (q, n) :: rest =>
      let '(o, st') := _run w q n st in
      let '(os, st'') := run_calls w rest st' in
      (o :: os, st'')
  end.

(* ================================================================== *)
(** ** crew.py *)

Definition emitT (e : event) : M trace unit :=
  modify (fun tr : trace => tr ++ [e]).

Definition callT {A} (e : event) (o : outcome A) : M trace A :=
  emitT e ;;; lift o.

(** [SeinfeldScriptCrew()]: builds the one [SeinfeldRAGTool] shared by
    the agents. *)
Definition SeinfeldScriptCrew (w : World) : M trace SeinfeldRAGTool :=
  fun tr =>
    match __init__ w tr with
    | (Return _, (tool, tr')) => (Return tool, tr')
    | (Raise e, (_, tr')) => (Raise e, tr')
    end.

(** [run_crew(theme)].  Building the agents and tasks from the YAML
    configuration and what the agents do inside [kickoff] belong to the
    framework: together they are the [crew_kickoff] field of the world.
    The theme reaches it as given. *)
Definition run_crew (w : World) (theme : pystr) : M trace pystr :=
  callT (EvMkdir (lit "output")) (mkdir_output w) ;;;
  crew_instance <- SeinfeldScriptCrew w ;;
  raw <- callT (EvKickoff theme) (crew_kickoff w theme) ;;
  ret raw.

(* ================================================================== *)
(** ** main.py *)

(** The namespace returned by [parser.parse_args()]. *)
Record Args := {
  theme : option pystr;
  interactive : bool;
  output : pystr;
  verbose : bool;
  demo : bool
}.

(** How [main] ends when no exception escapes it. *)
Inductive ending :=
| Completed
| SystemExit (code : Z).

(** [not theme] for the optional positional argument. *)
Definition falsy (t : option pystr) : bool :=
  match t with
  | None => true
  | Some s => negb (truthy s)
  end.

Definition no_theme_message : pystr :=
  [10%N; 10060%N; 32%N] ++ lit "No theme provided. Exiting.".

(** The [try] block of [main] with its two handlers, both of which end
    in [sys.exit(1)]. *)
Definition generate_and_save (w : World) (a : Args) (theme : pystr)
  : M trace ending :=
  try_except
    (lift (import_crew w) ;;;
     result <- run_crew w theme ;;
     callT (EvWriteFile (output a)
              (lit "# Seinfeld Episode: " ++ theme ++ nl ++ nl ++ result))
           (write_file w (output a)
              (lit "# Seinfeld Episode: " ++ theme ++ nl ++ nl ++ result)) ;;;
     ret Completed)
    (fun _ => ret (SystemExit 1)).

(** [main()], after argument parsing.  The banner, the environment
    report and the progress lines written to the terminal are not
    recorded, except the rejection message. *)
Definition main (w : World) (a : Args) : M trace ending :=
  if interactive a || falsy (theme a)
  then
    line <- callT EvInput (input w) ;;
    let theme := strip line in
    if negb (truthy theme)
    then emitT (EvPrint no_theme_message) ;;; ret (SystemExit 1)
    else
      callT (EvMkdir (output a)) (mkdir_parents w (output a)) ;;;
      generate_and_save w a theme
  else
    let theme := or_default (theme a) [] in
    callT (EvMkdir (output a)) (mkdir_parents w (output a)) ;;;
    generate_and_save w a theme.

(* ================================================================== *)
(** ** Concrete worlds used in the examples *)

Definition unreachable {A} : outcome A :=
  Raise (Exn OtherException (lit "unambiguous timeout")).

Definition two_hits : list result :=
  [ {| r_metadata := None;
       r_text := Some (lit "GEORGE: I hate my job.");
       r_score := Some (lit "0.91") |};
    {| r_metadata := None;
       r_text := Some (lit "GEORGE: They want me to work!");
       r_score := Some (lit "0.84") |} ].

(** Every service answers; the index holds two matching lines. *)
Definition online : World :=
  {| import_sdk := Return tt;
     getenv := fun _ => Some (lit "demos");
     PasswordAuthenticator := fun _ _ => Return 1%N;
     ClusterOptions := fun _ => Return 2%N;
     Cluster := fun _ _ => Return 3%N;
     wait_until_ready := fun _ => Return tt;
     bucket := fun _ _ => Return 4%N;
     scope := fun _ _ => Return 5%N;
     collection := fun _ _ => Return 6%N;
     OpenAIEmbeddings := fun _ _ _ => Return 7%N;
     CouchbaseQueryVectorStore := fun _ _ _ _ _ => Return 8%N;
     similarity_search := fun _ _ _ _ _ => Return two_hits;
     mkdir_output := Return tt;
     crew_kickoff := fun t => Return (lit "INT. MONK'S - DAY");
     import_crew := Return tt;
     input := Return (lit "   ");
     mkdir_parents := fun _ => Return tt;
     write_file := fun _ _ => Return tt |}.

(** The cluster does not answer within the ten seconds. *)
Definition offline : World :=
  {| import_sdk := Return tt;
     getenv := fun _ => None;
     PasswordAuthenticator := fun _ _ => Return 1%N;
     ClusterOptions := fun _ => Return 2%N;
     Cluster := fun _ _ => Return 3%N;
     wait_until_ready := fun _ => unreachable;
     bucket := fun _ _ => unreachable;
     scope := fun _ _ => unreachable;
     collection := fun _ _ => unreachable;
     OpenAIEmbeddings := fun _ _ _ => unreachable;
     CouchbaseQueryVectorStore := fun _ _ _ _ _ => unreachable;
     similarity_search := fun _ _ _ _ _ => unreachable;
     mkdir_output := Return tt;
     crew_kickoff := fun t => Return (lit "INT. MONK'S - DAY");
     import_crew := Return tt;
     input := Return (lit "Kramer opens a museum");
     mkdir_parents := fun _ => Return tt;
     write_file := fun _ _ => Return tt |}.


(** A tool whose attributes are all set, [_openai_client] included: no
    constructor call produces it, but [_run] is defined on it. *)
Definition wired_tool : SeinfeldRAGTool :=
  {| _cluster := Some 3%N; _bucket := Some 4%N; _scope := Some 5%N;
     _collection := Some 6%N; _openai_client := Some 9%N;
     _embeddings := Some 7%N; _vector_store := Some 8%N |}.

(* ================================================================== *)
(** ** Functions used to state the properties *)

(** Is this event a call to [similarity_search]? *)
Definition is_search (e : event) : bool :=
  match e with EvSimilaritySearch _ _ _ => true | _ => false end.

(** The clamping the specification describes for [result_count]. *)
Definition clamp_result_count (n : Z) : Z := Z.max 1 (Z.min 10 n).

(** The arguments of [seinfeld THEME] with every option at its default. *)
Definition cli (t : option pystr) : Args :=
  {| theme := t; interactive := false;
     output := lit "output/seinfeld_script.md";
     verbose := false; demo := false |}.

(** [pieces_from] cuts a string at the occurrences [replace_from] would
    replace, returning the text before the first cut and the texts that
    follow each cut; [join] puts [new] between them. *)
Fixpoint pieces_from (old : pystr) (skip : nat) (cur : pystr) (s : pystr)
  : pystr * list pystr :=
  match s with
  | [] => (cur, [])
  | c :: s' =>
      match skip with
      | S k => pieces_from old k cur s'
      | O =>
          if startswith old s
          then let '(p, ps) := pieces_from old (List.length old - 1) [] s' in
               (cur, p :: ps)
          else pieces_from old 0 (cur ++ [c]) s'
      end
  end.

Definition pieces (old s : pystr) : pystr * list pystr :=
  pieces_from old 0 [] s.

Definition join (new : pystr) (ps : pystr * list pystr) : pystr :=
  fst ps ++ flat_map (fun p => new ++ p) (snd ps).

(** The five stretches of the demo text around the four occurrences of
    the placeholder. *)
Definition demo_pieces : pystr * list pystr :=
  Eval vm_compute in pieces (lit "[topic]") demo_default.

Definition piece (i : nat) : pystr :=
  match i with
  | O => fst demo_pieces
  | S j => nth j (snd demo_pieces) []
  end.

(** No character of [s] is whitespace. *)
Definition no_space (s : pystr) : bool :=
  forallb (fun c => negb (isspace c)) s.

(** The number of positions of [s] at which [pat] begins. *)
Fixpoint count (pat s : pystr) : nat :=
  match s with
  | [] => 0
  | _ :: s' => (if startswith pat s then 1 else 0) + count pat s'
  end.

(** No ending of [a] shorter than [pat] is a beginning of [pat]. *)
Fixpoint no_partial (pat a : pystr) : bool :=
  match a with
  | [] => true
  | _ :: a' =>
      (Nat.leb (List.length pat) (List.length a) || negb (startswith a pat))
      && no_partial pat a'
  end.

(** How each example begins, in the demo text and in [_format_results]. *)
Definition example_header : pystr := lit "### Example ".

(** The number of examples a response shows. *)
Definition count_examples (r : pystr) : nat := count example_header r.

(** Some character of [q] is not whitespace, so [q.split()] is not empty. *)
Definition has_token (q : pystr) : bool :=
  existsb (fun c => negb (isspace c)) q.

(* ================================================================== *)
(** ** The rest of crew.py and main.py *)

(** The keyword arguments [get_llm] hands to [LLM(...)]. *)
Record LLM := {
  model : option pystr;
  api_key : option pystr;
  base_url : option pystr
}.

(** [get_llm()]: a model name that is set and not empty gets the
    provider prefix unless it already starts with it. *)
Definition get_llm (w : World) : LLM :=
  let model_name := getenv w (lit "LLM_MODEL_NAME") in
  let api_key := getenv w (lit "LLM_API_KEY") in
  let base_url := getenv w (lit "CAPELLA_AI_ENDPOINT") in
  let model_name :=
    match model_name with
    | Some m =>
        if truthy m && negb (startswith (lit "openai/") m)
        then Some (lit "openai/" ++ m)
        else Some m
    | None => None
    end in
  {| model := model_name; api_key := api_key; base_url := base_url |}.

Definition dq : pystr := [34%N].

Fixpoint join_lines (ls : list pystr) : pystr :=
  match ls with
  | [] => []
  | [l] => l
  | l :: ls' => l ++ nl ++ join_lines ls'
  end.

(** The sample [.env] file printed by [setup_environment]. *)
Definition env_file_example : pystr :=
  join_lines (
    [] ::
    lit "LLM_API_KEY=cbsk-v1-xxx" ::
    (lit "LLM_MODEL_NAME=" ++ dq ++ lit "mistralai/mistral-7b-instruct-v0.3" ++ dq) ::
    lit "EMBEDDING_API_KEY=cbsk-v1-xxx" ::
    (lit "EMBEDDING_MODEL_NAME=" ++ dq ++ lit "nvidia/llama-3.2-nv-embedqa-1b-v2" ++ dq) ::
    lit "CAPELLA_AI_ENDPOINT=https://your-ai-endpoint.cloud.couchbase.com/v1" ::
    lit "CB_CONNECTION_STRING=couchbase://localhost" ::
    lit "CB_USERNAME=Administrator" ::
    lit "CB_PASSWORD=password" ::
    lit "CB_BUCKET=demos" ::
    lit "CB_SCOPE=docs" ::
    lit "CB_COLLECTION=default" ::
    [] :: nil).

Definition required_vars : list pystr := [lit "OPENAI_API_KEY"].

(** [[var for var in required_vars if not os.getenv(var)]], on the
    environment as it is once the [.env] file has been loaded. *)
Definition missing_vars (w : World) : list pystr :=
  filter (fun var => falsy (getenv w var)) required_vars.

Definition missing_header : pystr :=
  [9888%N; 65039%N; 32%N; 32%N]
  ++ lit "Warning: Missing environment variables:".

Fixpoint print_vars (vars : list pystr) : M trace unit :=
  match vars with
  | [] => ret tt
  | var :: rest => emitT (EvPrint (lit "   - " ++ var)) ;;; print_vars rest
  end.

(** [setup_environment()], after [load_dotenv]. *)
Definition setup_environment (w : World) : M trace unit :=
  match missing_vars w with
  | [] => ret tt
  | missing =>
      emitT (EvPrint missing_header) ;;;
      print_vars missing ;;;
      emitT (EvPrint
        (nl ++ lit "The script will run in demo mode without Couchbase RAG.")) ;;;
      emitT (EvPrint
        (lit "To enable full functionality, create a .env file with:")) ;;;
      emitT (EvPrint env_file_example)
  end.

(** Kinds of events. *)
Definition is_connection (e : event) : bool :=
  match e with
  | EvImport | EvCluster _ | EvWaitUntilReady | EvBucket _ | EvScope _
  | EvCollection _ | EvOpenAIEmbeddings | EvVectorStore => true
  | _ => false
  end.

Definition is_print (e : event) : bool :=
  match e with EvPrint _ => true | _ => false end.

Definition is_kickoff (e : event) : bool :=
  match e with EvKickoff _ => true | _ => false end.

Definition is_write (e : event) : bool :=
  match e with EvWriteFile _ _ => true | _ => false end.

Definition is_input (e : event) : bool :=
  match e with EvInput => true | _ => false end.

Definition is_some {A} (o : option A) : bool := negb (is_none o).

(** [online] with the Couchbase SDK not installed. *)
Definition no_sdk : World :=
  {| import_sdk :=
       Raise (Exn ImportError (lit "No module named 'couchbase'"));
     getenv := getenv online;
     PasswordAuthenticator := PasswordAuthenticator online;
     ClusterOptions := ClusterOptions online;
     Cluster := Cluster online;
     wait_until_ready := wait_until_ready online;
     bucket := bucket online;
     scope := scope online;
     collection := collection online;
     OpenAIEmbeddings := OpenAIEmbeddings online;
     CouchbaseQueryVectorStore := CouchbaseQueryVectorStore online;
     similarity_search := similarity_search online;
     mkdir_output := mkdir_output online;
     crew_kickoff := crew_kickoff online;
     import_crew := import_crew online;
     input := input online;
     mkdir_parents := mkdir_parents online;
     write_file := write_file online |}.

Definition init_warning (e : exn) : list event :=
  [EvPrint (lit "Warning: Could not initialize Couchbase connection: "
            ++ exn_str e);
   EvPrint (lit "The tool will operate in demo mode with sample responses.")].

(** The word [_get_demo_response] puts in place of the placeholder. *)
Definition topic_of (q : pystr) : pystr :=
  match split q with
  | t :: _ => t
  | [] => lit "this"
  end.

(** The value stored under [k] in the metadata of a hit, or the empty
    string. *)
Definition metadata_text (k : string) (r : result) : pystr :=
  or_default (dict_get (lit k) (or_default (r_metadata r) [])) [].

(** A world that differs from [w] in what the file system, the crew
    and the terminal do. *)
Definition with_io (w : World)
    (mkdir_output' : outcome unit) (crew_kickoff' : pystr -> outcome pystr)
    (input' : outcome pystr) (mkdir_parents' : pystr -> outcome unit)
  : World :=
  {| import_sdk := import_sdk w;
     getenv := getenv w;
     PasswordAuthenticator := PasswordAuthenticator w;
     ClusterOptions := ClusterOptions w;
     Cluster := Cluster w;
     wait_until_ready := wait_until_ready w;
     bucket := bucket w;
     scope := scope w;
     collection := collection w;
     OpenAIEmbeddings := OpenAIEmbeddings w;
     CouchbaseQueryVectorStore := CouchbaseQueryVectorStore w;
     similarity_search := similarity_search w;
     mkdir_output := mkdir_output';
     crew_kickoff := crew_kickoff';
     import_crew := import_crew w;
     input := input';
     mkdir_parents := mkdir_parents';
     write_file := write_file w |}.

Definition permission_denied {A} : outcome A :=
  Raise (Exn OtherException (lit "[Errno 13] Permission denied")).

(** The working directory cannot be written to. *)
Definition read_only_cwd : World :=
  with_io offline permission_denied (crew_kickoff offline)
    (input offline) (mkdir_parents offline).

(** The language model refuses the request. *)
Definition crew_fails : World :=
  with_io offline (Return tt)
    (fun _ => Raise (Exn OtherException (lit "AuthenticationError")))
    (input offline) (mkdir_parents offline).

(** The terminal is closed: [input()] meets end of file. *)
Definition closed_stdin : World :=
  with_io offline (Return tt) (crew_kickoff offline)
    (Raise (Exn EOFError (lit "EOF when reading a line")))
    (mkdir_parents offline).


(** The user types a theme with spaces around it. *)
Definition typing : World :=
  with_io offline (Return tt) (crew_kickoff offline)
    (Return (lit "  Kramer opens a museum  ")) (mkdir_parents offline).

(** The events of the constructor, by themselves. *)
Definition init_events (w : World) : list event :=
  snd (snd (__init__ w [])).

(** What [main] writes to the output file. *)
Definition script_file (theme result : pystr) : pystr :=
  lit "# Seinfeld Episode: " ++ theme ++ nl ++ nl ++ result.

(* ================================================================== *)
(** ** The string functions on known values *)

Example split_known :
  split (lit "  George   complaining about") =
  [lit "George"; lit "complaining"; lit "about"]
  /\ split [9%N; 160%N; 8195%N; 28%N] = [].
Proof. split; reflexivity. Qed.

Example replace_known :
  replace (lit "ab") (lit "X") (lit "cababbab") = lit "cXXbX"
  /\ replace (lit "aa") (lit "b") (lit "aaa") = lit "ba".
Proof. split; reflexivity. Qed.

Example strip_known :
  strip (lit "  a b  ") = lit "a b" /\ strip (lit "   ") = [].
Proof. split; reflexivity. Qed.

Example demo_default_length :
  List.length demo_default = 1525
  /\ count (lit "[topic]") demo_default = 4
  /\ count (lit "[Topic]") demo_default = 1
  /\ count_examples demo_default = 3.
Proof. repeat split; vm_compute; reflexivity. Qed.

(* ================================================================== *)
(** ** The constructor *)

Ltac crunch_outcomes :=
  repeat match goal with
         | |- context [match ?o with Return _ => _ | Raise _ => _ end] =>
             destruct o; cbn
         end.

Ltac unfold_init :=
  unfold __init__, _initialize_connections, connect, try_except, bind,
    call, emit, print, assign, modify, lift, ret; cbn.

(** [_initialize_connections] never lets an exception out. *)
Lemma init_returns (w : World) (tr : trace) :
  fst (__init__ w tr) = Return tt.
Proof.
  unfold_init; crunch_outcomes; try destruct u; reflexivity.
Qed.

(** No path through [_initialize_connections] assigns [_openai_client]. *)
Lemma init_openai_client (w : World) (tr : trace) :
  _openai_client (fst (snd (__init__ w tr))) = None.
Proof.
  unfold_init; crunch_outcomes; reflexivity.
Qed.

(** With [_openai_client] unset, [_run] is the demo response and touches
    neither the tool nor the outside world. *)
Lemma run_without_client (w : World) (q : pystr) (n : Z) (st : RagSt) :
  _openai_client (fst st) = None ->
  _run w q n st = (_get_demo_response q, st).
Proof.
  intros H. unfold _run, bind, get, lift. cbn. rewrite H. cbn.
  rewrite orb_true_r. reflexivity.
Qed.

Lemma run_calls_without_client (w : World) (calls : list (pystr * Z))
    (st : RagSt) :
  _openai_client (fst st) = None ->
  run_calls w calls st
  = (List.map (fun c => _get_demo_response (fst c)) calls, st).
Proof.
  intros H. induction calls as [|[q n] rest IH]; cbn [run_calls List.map fst].
  - reflexivity.
  - rewrite (run_without_client w q n st H). rewrite IH. reflexivity.
Qed.

(** A failed setup announces the demo mode: the handler's two lines are
    the last events of the constructor. *)
Lemma init_after_failure (w : World) (tr : trace) (e : exn) :
  fst (connect w (fresh_tool, tr)) = Raise e ->
  snd (__init__ w tr)
  = (fst (snd (connect w (fresh_tool, tr))),
     snd (snd (connect w (fresh_tool, tr)))
       ++ [EvPrint (lit "Warning: Could not initialize Couchbase connection: "
                    ++ exn_str e);
           EvPrint (lit "The tool will operate in demo mode with sample responses.")]).
Proof.
  intros H. unfold __init__, _initialize_connections, try_except.
  destruct (connect w (fresh_tool, tr)) as [[u|e'] [tool tr']];
    cbn [fst snd] in *; [discriminate|].
  inversion H; subst e'.
  unfold print, emit, bind, modify. cbn [fst snd].
  rewrite <- app_assoc. reflexivity.
Qed.

(** With a vector store in place, [_vector_search] asks the index for
    [num_results] hits on the three fields and hands its answer back. *)
Lemma vector_search_returns
    (w : World) (tool : SeinfeldRAGTool) (tr : trace)
    (q : pystr) (n : Z) (vs : obj) (rs : list result) :
  _vector_store tool = Some vs ->
  similarity_search w (List.length tr) vs q n search_fields = Return rs ->
  _vector_search w q n (tool, tr)
  = (Return rs, (tool, tr ++ [EvSimilaritySearch q n search_fields])).
Proof.
  intros Hv Hs.
  unfold _vector_search, try_except, call, print, emit, get.
  unfold bind, modify, lift, ret. cbn [fst snd].
  rewrite Hv, Hs. reflexivity.
Qed.

Lemma split_from_spaces (s : pystr) :
  forallb isspace s = true -> split_from [] s = [].
Proof.
  induction s as [|c s IH]; cbn; intros H.
  - reflexivity.
  - apply andb_true_iff in H. destruct H as [Hc Hs].
    rewrite Hc. apply IH, Hs.
Qed.

(* ================================================================== *)
(** ** Properties of the retrieval tool *)

(** C1 (evaluation at the failing input). With every service answering,
    the constructor stores the cluster and the vector store, yet the
    search for "George complaining about his job" with three results
    returns the demo text, issues no similarity search, and differs from
    the formatted hits; the same call on a tool whose [_openai_client]
    is set does search with the three metadata fields and formats the
    hits. *)
Theorem connected_tool_does_not_search :
  let q := lit "George complaining about his job" in
  let st := snd (__init__ online []) in
  _cluster (fst st) = Some 3%N
  /\ _vector_store (fst st) = Some 8%N
  /\ _run online q 3 st = (_get_demo_response q, st)
  /\ existsb is_search (snd (snd (_run online q 3 st))) = false
  /\ fst (_run online q 3 st) <> Return (_format_results two_hits q)
  /\ _run online q 3 (wired_tool, [])
     = (Return (_format_results two_hits q),
        (wired_tool, [EvSimilaritySearch q 3 search_fields])).
Proof.
  cbn zeta. split; [reflexivity|]. split; [reflexivity|].
  split; [apply run_without_client, init_openai_client|].
  split; [vm_compute; reflexivity|].
  split; [vm_compute; discriminate|].
  vm_compute. reflexivity.
Qed.

(** C9. The empty query passes the schema and [_run] answers it, on
    every constructed tool, with the template in which the placeholder
    is replaced by "this". *)
Theorem empty_query_uses_default (w : World) (tr : trace) (n : Z) :
  let st := snd (__init__ w tr) in
  let answer := replace (lit "[topic]") (lit "this") demo_default in
  _run w [] n st = (Return answer, st)
  /\ invoke w [] None st = (Return answer, st)
  /\ contains (lit "that's the thing about this. Everyone") answer = true.
Proof.
  cbn zeta. split; [|split].
  - rewrite run_without_client by apply init_openai_client. reflexivity.
  - unfold invoke, bind, lift. cbn [SeinfeldSearchInput_validate query num_results].
    rewrite run_without_client by apply init_openai_client. reflexivity.
  - vm_compute. reflexivity.
Qed.

(** C10. A query that is not empty but holds only whitespace makes
    [_get_demo_response] raise IndexError, and so does [_run] on every
    constructed tool. *)
Theorem whitespace_query_raises (q : pystr) :
  q <> [] ->
  forallb isspace q = true ->
  _get_demo_response q = Raise (Exn IndexError (lit "list index out of range"))
  /\ forall w tr n,
       fst (_run w q n (snd (__init__ w tr)))
       = Raise (Exn IndexError (lit "list index out of range")).
Proof.
  intros Hne Hsp.
  assert (Hd : _get_demo_response q
               = Raise (Exn IndexError (lit "list index out of range"))).
  { unfold _get_demo_response, split.
    destruct q as [|c q']; [congruence|].
    cbn [truthy]. rewrite (split_from_spaces _ Hsp). reflexivity. }
  split; [exact Hd|].
  intros w tr n.
  rewrite run_without_client by apply init_openai_client.
  exact Hd.
Qed.

Lemma whitespace_query_raises_witness :
  lit "  " <> []
  /\ forallb isspace (lit "  ") = true
  /\ (_get_demo_response (lit "  ")
        = Raise (Exn IndexError (lit "list index out of range"))
      /\ forall w tr n,
           fst (_run w (lit "  ") n (snd (__init__ w tr)))
           = Raise (Exn IndexError (lit "list index out of range"))).
Proof.
  split; [discriminate|]. split; [reflexivity|].
  apply (@whitespace_query_raises (lit "  ")); [discriminate|reflexivity].
Defined.

(** C3 (counterexample). A request for 0 results does not behave like a
    request for 1, nor a request for 15 like a request for 10: both are
    refused by the schema while the in-range requests are answered. *)
Lemma out_of_range_not_clamped :
  let st := snd (__init__ offline []) in
  let q := lit "George" in
  fst (invoke offline q (Some 0%Z) st)
    <> fst (invoke offline q (Some (clamp_result_count 0)) st)
  /\ fst (invoke offline q (Some 15%Z) st)
    <> fst (invoke offline q (Some (clamp_result_count 15)) st).
Proof.
  cbn zeta. split; vm_compute; discriminate.
Qed.

(** C3 (amended). A [num_results] below 1 or above 10 fails validation
    with a ValidationError and [_run] is not entered; a value from 1 to
    10 reaches [_run] unchanged.  Nothing after validation clamps
    either: [_vector_search] given the out-of-range value asks the index
    for exactly that many hits. *)
Theorem out_of_range_is_rejected
    (w : World) (st : RagSt) (q : pystr) (k : Z) :
  (k < 1 \/ 10 < k)%Z ->
  (exists msg, invoke w q (Some k) st = (Raise (Exn ValidationError msg), st))
  /\ (forall k', (1 <= k' <= 10)%Z ->
        invoke w q (Some k') st = _run w q k' st)
  /\ forall tool tr vs rs,
       _vector_store tool = Some vs ->
       similarity_search w (List.length tr) vs q k search_fields = Return rs ->
       _vector_search w q k (tool, tr)
       = (Return rs, (tool, tr ++ [EvSimilaritySearch q k search_fields])).
Proof.
  intros Hk. split; [|split].
  - unfold invoke, bind, lift, SeinfeldSearchInput_validate.
    destruct (1 <=? k)%Z eqn:E1.
    + destruct (k <=? 10)%Z eqn:E2.
      * apply Z.leb_le in E1. apply Z.leb_le in E2. lia.
      * eexists. reflexivity.
    + eexists. reflexivity.
  - intros k' [H1 H2].
    unfold invoke, bind, lift, SeinfeldSearchInput_validate.
    apply Z.leb_le in H1. apply Z.leb_le in H2. rewrite H1, H2.
    reflexivity.
  - intros tool tr vs rs Hv Hs.
    apply (vector_search_returns w tool tr q k Hv Hs).
Qed.

Lemma out_of_range_is_rejected_witness :
  (15 < 1 \/ 10 < 15)%Z
  /\ ((exists msg, invoke online (lit "George") (Some 15%Z) (fresh_tool, [])
                   = (Raise (Exn ValidationError msg), (fresh_tool, [])))
      /\ (forall k', (1 <= k' <= 10)%Z ->
            invoke online (lit "George") (Some k') (fresh_tool, [])
            = _run online (lit "George") k' (fresh_tool, []))
      /\ forall tool tr vs rs,
           _vector_store tool = Some vs ->
           similarity_search online (List.length tr) vs (lit "George") 15%Z
             search_fields = Return rs ->
           _vector_search online (lit "George") 15%Z (tool, tr)
           = (Return rs,
              (tool, tr ++ [EvSimilaritySearch (lit "George") 15%Z
                              search_fields]))).
Proof.
  split.
  - right. lia.
  - apply (@out_of_range_is_rejected online (fresh_tool, []) (lit "George") 15%Z).
    right. lia.
Defined.

(* ================================================================== *)
(** ** Properties of the crew runner and the entry point *)

Lemma run_crew_kicks_off (w : World) (t : pystr) (tr : trace) :
  mkdir_output w = Return tt ->
  run_crew w t tr
  = (crew_kickoff w t,
     snd (snd (__init__ w (tr ++ [EvMkdir (lit "output")])))
       ++ [EvKickoff t]).
Proof.
  intros Hm.
  unfold run_crew, callT, emitT, SeinfeldScriptCrew, bind, modify, lift, ret.
  rewrite Hm.
  pose proof (init_returns w (tr ++ [EvMkdir (lit "output")])) as Hi.
  destruct (__init__ w (tr ++ [EvMkdir (lit "output")])) as [[u|e] [tool tr']];
    cbn [fst snd] in *; [|discriminate].
  destruct (crew_kickoff w t); reflexivity.
Qed.

(** C5 (counterexample). [run_crew] given the empty theme is not
    rejected: it starts the crew on that theme and returns its script.
    [main] given the empty theme as argument asks for another one and,
    when one is typed, runs the crew on it and completes. *)
Lemma empty_theme_not_rejected :
  fst (run_crew offline [] []) = Return (lit "INT. MONK'S - DAY")
  /\ existsb (fun e => match e with EvKickoff [] => true | _ => false end)
       (snd (run_crew offline [] [])) = true
  /\ fst (main offline (cli (Some [])) []) = Return Completed
  /\ existsb (fun e => match e with EvKickoff _ => true | _ => false end)
       (snd (main offline (cli (Some [])) [])) = true.
Proof.
  repeat split; vm_compute; reflexivity.
Qed.

(** C5 (amended). In [main], when the theme argument is missing or
    empty, or interactive mode is on, and the line typed at the prompt
    is empty once stripped, [main] prints the message and ends with
    [sys.exit(1)]; the trace holds nothing but the prompt and the
    message, so no directory is made and the crew is not started.
    [run_crew] makes no check of its own: it kicks the crew off on
    whatever theme it receives. *)
Theorem main_exits_without_theme
    (w : World) (a : Args) (tr : trace) (line : pystr) :
  interactive a || falsy (theme a) = true ->
  input w = Return line ->
  strip line = [] ->
  main w a tr
    = (Return (SystemExit 1), tr ++ [EvInput] ++ [EvPrint no_theme_message])
  /\ forall t,
       mkdir_output w = Return tt ->
       run_crew w t tr
       = (crew_kickoff w t,
          snd (snd (__init__ w (tr ++ [EvMkdir (lit "output")])))
            ++ [EvKickoff t]).
Proof.
  intros Hi Hl Hs. split.
  - unfold main. rewrite Hi.
    unfold callT, emitT, bind, modify, lift, ret. rewrite Hl, Hs.
    cbn [truthy negb]. rewrite <- app_assoc. reflexivity.
  - intros t Hm. apply run_crew_kicks_off, Hm.
Qed.

Lemma main_exits_without_theme_witness :
  interactive (cli None) || falsy (theme (cli None)) = true
  /\ input online = Return (lit "   ")
  /\ strip (lit "   ") = []
  /\ (main online (cli None) []
        = (Return (SystemExit 1), [] ++ [EvInput] ++ [EvPrint no_theme_message])
      /\ forall t,
           mkdir_output online = Return tt ->
           run_crew online t []
           = (crew_kickoff online t,
              snd (snd (__init__ online ([] ++ [EvMkdir (lit "output")])))
                ++ [EvKickoff t])).
Proof.
  split; [reflexivity|]. split; [reflexivity|]. split; [reflexivity|].
  apply (@main_exits_without_theme online (cli None) [] (lit "   "));
    reflexivity.
Defined.

(* ================================================================== *)
(** ** The demo text under substitution *)

(** *** [replace] as split-and-join *)

Lemma replace_from_join (old new : pystr) (s : pystr) :
  forall skip cur,
    cur ++ replace_from old new skip s
    = join new (pieces_from old skip cur s).
Proof.
  induction s as [|c s IH]; intros skip cur.
  - cbn. unfold join. cbn. reflexivity.
  - cbn [replace_from pieces_from]. destruct skip as [|k].
    + destruct (startswith old (c :: s)).
      * specialize (IH (List.length old - 1) []).
        destruct (pieces_from old (List.length old - 1) [] s) as [p ps].
        unfold join in *. cbn [fst snd flat_map] in *.
        cbn [app] in IH. rewrite IH, <- !app_assoc. reflexivity.
      * rewrite <- IH. rewrite <- app_assoc. reflexivity.
    + apply IH.
Qed.

Lemma replace_join (old new s : pystr) :
  replace old new s = join new (pieces old s).
Proof.
  unfold replace, pieces. rewrite <- replace_from_join. reflexivity.
Qed.

Lemma demo_pieces_count : List.length (snd demo_pieces) = 4.
Proof. reflexivity. Qed.

Lemma demo_response_shape (topic : pystr) :
  replace (lit "[topic]") topic demo_default
  = piece 0 ++ topic ++ piece 1 ++ topic ++ piece 2
    ++ topic ++ piece 3 ++ topic ++ piece 4.
Proof.
  rewrite replace_join.
  change (pieces (lit "[topic]") demo_default) with demo_pieces.
  unfold join, piece. cbn [demo_pieces fst snd flat_map nth].
  rewrite !app_nil_r. rewrite <- !app_assoc. reflexivity.
Qed.

(** *** Tokens *)

Lemma no_space_snoc (s : pystr) (c : char) :
  no_space s = true -> isspace c = false -> no_space (s ++ [c]) = true.
Proof.
  intros Hs Hc. unfold no_space in *. rewrite forallb_app, Hs. cbn.
  rewrite Hc. reflexivity.
Qed.

Lemma split_from_head (s : pystr) :
  forall tok t l,
    no_space tok = true ->
    split_from tok s = t :: l ->
    no_space t = true /\ t <> [].
Proof.
  induction s as [|c s IH]; intros tok t l Htok H; cbn in H.
  - destruct tok as [|a tok']; [discriminate|].
    inversion H; subst. split; [assumption|discriminate].
  - destruct (isspace c) eqn:Ec.
    + destruct tok as [|a tok'].
      * eapply IH; eauto.
      * inversion H; subst. split; [assumption|discriminate].
    + eapply IH; [|exact H]. apply no_space_snoc; assumption.
Qed.

(** The topic put in place of the placeholder has no whitespace. *)
Lemma demo_response_topic (q r : pystr) :
  _get_demo_response q = Return r ->
  exists topic,
    no_space topic = true
    /\ r = replace (lit "[topic]") topic demo_default.
Proof.
  unfold _get_demo_response. destruct q as [|c q']; cbn [truthy].
  - intros H. inversion H. exists (lit "this"). split; reflexivity.
  - unfold split, index0.
    destruct (split_from [] (c :: q')) as [|t l] eqn:E; [discriminate|].
    intros H. inversion H. exists t. split; [|reflexivity].
    eapply split_from_head; [|exact E]. reflexivity.
Qed.

(** *** Occurrences *)

Lemma startswith_app_long (p s r : pystr) :
  List.length p <= List.length s ->
  startswith p (s ++ r) = startswith p s.
Proof.
  revert s. induction p as [|a p IH]; intros s H.
  - destruct s; reflexivity.
  - destruct s as [|b s]; cbn in H; [lia|].
    cbn. rewrite IH by lia. reflexivity.
Qed.

Lemma startswith_app_true (p s r : pystr) :
  startswith p s = true -> startswith p (s ++ r) = true.
Proof.
  revert s. induction p as [|a p IH]; intros s H.
  - destruct s; reflexivity.
  - destruct s as [|b s]; cbn in *; [discriminate|].
    apply andb_true_iff in H. destruct H as [H1 H2].
    rewrite H1, (IH _ H2). reflexivity.
Qed.

(** When [s] is shorter than [p] and is not how [p] begins, nothing
    appended to [s] makes [p] begin it. *)
Lemma startswith_app_short (p s r : pystr) :
  List.length s < List.length p ->
  startswith s p = false ->
  startswith p (s ++ r) = false.
Proof.
  revert p. induction s as [|b s IH]; intros p Hl H.
  - destruct p; cbn in *; [lia|discriminate].
  - destruct p as [|a p]; cbn in *; [lia|].
    rewrite N.eqb_sym.
    destruct (b =? a)%N; cbn in *; [|reflexivity].
    apply IH; [lia|assumption].
Qed.

Lemma contains_app_l (p s r : pystr) :
  contains p s = true -> contains p (s ++ r) = true.
Proof.
  induction s as [|c s IH]; cbn; intros H.
  - rewrite orb_false_r in H. destruct p; [|discriminate].
    destruct r; reflexivity.
  - apply orb_true_iff in H. destruct H as [H|H].
    + change (c :: s ++ r) with ((c :: s) ++ r).
      rewrite (startswith_app_true _ _ r H). reflexivity.
    + rewrite (IH H). apply orb_true_r.
Qed.

Lemma contains_app_r (p s r : pystr) :
  contains p r = true -> contains p (s ++ r) = true.
Proof.
  intros H. induction s as [|c s IH]; cbn.
  - assumption.
  - rewrite IH. apply orb_true_r.
Qed.

Lemma count_app (pat a r : pystr) :
  no_partial pat a = true ->
  count pat (a ++ r) = count pat a + count pat r.
Proof.
  induction a as [|c a IH]; intros H.
  - reflexivity.
  - cbn [no_partial] in H. apply andb_true_iff in H. destruct H as [H1 H2].
    cbn [count app]. rewrite (IH H2).
    assert (E : startswith pat (c :: a ++ r) = startswith pat (c :: a)).
    { change (c :: a ++ r) with ((c :: a) ++ r).
      apply orb_true_iff in H1. destruct H1 as [H1|H1].
      - apply startswith_app_long. apply Nat.leb_le in H1. exact H1.
      - apply negb_true_iff in H1.
        destruct (Nat.leb_spec (List.length pat) (List.length (c :: a)))
          as [Hl|Hl].
        + apply startswith_app_long, Hl.
        + rewrite (startswith_app_short _ _ r Hl H1).
          symmetry.
          rewrite <- (app_nil_r (c :: a)).
          apply startswith_app_short; assumption. }
    rewrite E. lia.
Qed.

(** A topic without whitespace adds no header, when what follows it is
    not the rest of a header begun by up to three '#'. *)
Lemma count_examples_topic (topic rest : pystr) :
  no_space topic = true ->
  startswith (skipn 1 example_header) rest = false ->
  startswith (skipn 2 example_header) rest = false ->
  startswith (skipn 3 example_header) rest = false ->
  count_examples (topic ++ rest) = count_examples rest.
Proof.
  intros Hs H1 H2 H3. unfold count_examples.
  induction topic as [|c t IH]; [reflexivity|].
  cbn [no_space forallb] in Hs. apply andb_true_iff in Hs.
  destruct Hs as [_ Ht]. fold (no_space t) in Ht.
  cbn [count app]. rewrite (IH Ht).
  assert (E : startswith example_header (c :: t ++ rest) = false).
  { destruct t as [|c1 [|c2 [|c3 t']]].
    - change example_header with (35%N :: skipn 1 example_header).
      cbn [startswith app]. rewrite H1. apply andb_false_r.
    - change example_header with (35%N :: 35%N :: skipn 2 example_header).
      cbn [startswith app]. rewrite H2. rewrite !andb_false_r. reflexivity.
    - change example_header
        with (35%N :: 35%N :: 35%N :: skipn 3 example_header).
      cbn [startswith app]. rewrite H3. rewrite !andb_false_r. reflexivity.
    - change example_header
        with (35%N :: 35%N :: 35%N :: 32%N :: skipn 4 example_header).
      cbn [startswith app].
      cbn [no_space forallb] in Ht.
      apply andb_true_iff in Ht. destruct Ht as [_ Ht].
      apply andb_true_iff in Ht. destruct Ht as [_ Ht].
      apply andb_true_iff in Ht. destruct Ht as [Hc3 _].
      destruct (32 =? c3)%N eqn:E3.
      + apply N.eqb_eq in E3. subst c3. discriminate.
      + rewrite !andb_false_r. reflexivity. }
  rewrite E. reflexivity.
Qed.

(** Whatever whitespace-free topic is substituted, the demo text has
    its three examples. *)
Lemma demo_response_three_examples (topic : pystr) :
  no_space topic = true ->
  count_examples (replace (lit "[topic]") topic demo_default) = 3.
Proof.
  intros Hs. rewrite demo_response_shape. unfold count_examples.
  rewrite (count_app example_header (piece 0)) by (vm_compute; reflexivity).
  fold (count_examples (topic ++ piece 1 ++ topic ++ piece 2
                          ++ topic ++ piece 3 ++ topic ++ piece 4)).
  rewrite count_examples_topic; [|assumption|reflexivity..].
  unfold count_examples.
  rewrite (count_app example_header (piece 1)) by (vm_compute; reflexivity).
  fold (count_examples (topic ++ piece 2 ++ topic ++ piece 3
                          ++ topic ++ piece 4)).
  rewrite count_examples_topic; [|assumption|reflexivity..].
  unfold count_examples.
  rewrite (count_app example_header (piece 2)) by (vm_compute; reflexivity).
  fold (count_examples (topic ++ piece 3 ++ topic ++ piece 4)).
  rewrite count_examples_topic; [|assumption|reflexivity..].
  unfold count_examples.
  rewrite (count_app example_header (piece 3)) by (vm_compute; reflexivity).
  fold (count_examples (topic ++ piece 4)).
  rewrite count_examples_topic; [|assumption|reflexivity..].
  vm_compute. reflexivity.
Qed.

Lemma split_from_nonempty (s : pystr) :
  forall tok,
    tok <> [] \/ has_token s = true ->
    split_from tok s <> [].
Proof.
  induction s as [|c s IH]; intros tok H; cbn.
  - destruct H as [H|H]; [|discriminate].
    destruct tok; [congruence|discriminate].
  - destruct (isspace c) eqn:Ec.
    + destruct tok as [|a tok']; [|discriminate].
      apply IH. right. destruct H as [H|H]; [congruence|].
      cbn in H. rewrite Ec in H. exact H.
    + apply IH. left. destruct tok; discriminate.
Qed.

(** A query that is empty or holds a token gets a demo response. *)
Lemma demo_response_returns (q : pystr) :
  q = [] \/ has_token q = true ->
  exists topic,
    no_space topic = true
    /\ _get_demo_response q
       = Return (replace (lit "[topic]") topic demo_default).
Proof.
  intros H.
  destruct (_get_demo_response q) as [r|e] eqn:E.
  - destruct (demo_response_topic _ E) as [t [Ht Hr]].
    exists t. split; [assumption|]. rewrite Hr. reflexivity.
  - exfalso. unfold _get_demo_response in E.
    destruct q as [|c q']; cbn [truthy] in E; [discriminate|].
    destruct H as [H|H]; [discriminate|].
    unfold split, index0 in E.
    destruct (split_from [] (c :: q')) as [|t l] eqn:Es; [|discriminate].
    revert Es. apply split_from_nonempty. right. exact H.
Qed.

(** C4 (counterexample). Asked for one result, the tool answers with
    the demo text and its three examples. *)
Lemma one_requested_three_returned :
  exists r,
    fst (invoke offline (lit "George") (Some 1%Z) (snd (__init__ offline [])))
      = Return r
    /\ count_examples r = 3
    /\ ~ (Z.of_nat (count_examples r) <= 1)%Z.
Proof.
  eexists. split; [vm_compute; reflexivity|].
  split; [vm_compute; reflexivity|].
  vm_compute. intros H. apply H. reflexivity.
Qed.

(** C4 (amended). After a failed connection setup, a search for 3 to
    10 results on a query that is empty or holds a token returns a text
    with exactly three examples, hence no more than were asked for, and
    leaves the tool and the trace as they were.  Where a vector store is
    in place, [_vector_search] asks the index for exactly [n] hits on
    the three fields and returns its answer unchanged. *)
Theorem demo_examples_bound
    (w : World) (tr : trace) (e : exn) (q : pystr) (n : Z) :
  fst (connect w (fresh_tool, tr)) = Raise e ->
  (3 <= n <= 10)%Z ->
  q = [] \/ has_token q = true ->
  (exists r,
     invoke w q (Some n) (snd (__init__ w tr))
       = (Return r, snd (__init__ w tr))
     /\ count_examples r = 3
     /\ (Z.of_nat (count_examples r) <= n)%Z)
  /\ forall tool tr0 vs rs,
       _vector_store tool = Some vs ->
       similarity_search w (List.length tr0) vs q n search_fields = Return rs ->
       _vector_search w q n (tool, tr0)
       = (Return rs, (tool, tr0 ++ [EvSimilaritySearch q n search_fields])).
Proof.
  intros _ Hn Hq. split.
  - destruct (demo_response_returns Hq) as [t [Ht Hr]].
    exists (replace (lit "[topic]") t demo_default).
    assert (Hc := demo_response_three_examples t Ht).
    split; [|split].
    + unfold invoke, bind, lift, SeinfeldSearchInput_validate.
      replace (1 <=? n)%Z with true by (symmetry; apply Z.leb_le; lia).
      replace (n <=? 10)%Z with true by (symmetry; apply Z.leb_le; lia).
      cbn [query num_results].
      rewrite run_without_client by apply init_openai_client.
      rewrite Hr. reflexivity.
    + exact Hc.
    + rewrite Hc. lia.
  - intros tool tr0 vs rs Hv Hs.
    apply (vector_search_returns w tool tr0 q n Hv Hs).
Qed.

Lemma demo_examples_bound_witness :
  fst (connect offline (fresh_tool, []))
    = Raise (Exn OtherException (lit "unambiguous timeout"))
  /\ (3 <= 4 <= 10)%Z
  /\ (lit "Elaine dancing" = [] \/ has_token (lit "Elaine dancing") = true)
  /\ ((exists r,
         invoke offline (lit "Elaine dancing") (Some 4%Z)
           (snd (__init__ offline []))
           = (Return r, snd (__init__ offline []))
         /\ count_examples r = 3
         /\ (Z.of_nat (count_examples r) <= 4)%Z)
      /\ forall tool tr0 vs rs,
           _vector_store tool = Some vs ->
           similarity_search offline (List.length tr0) vs
             (lit "Elaine dancing") 4%Z search_fields = Return rs ->
           _vector_search offline (lit "Elaine dancing") 4%Z (tool, tr0)
           = (Return rs,
              (tool, tr0 ++ [EvSimilaritySearch (lit "Elaine dancing") 4%Z
                               search_fields]))).
Proof.
  split; [reflexivity|]. split; [lia|]. split; [right; reflexivity|].
  apply (@demo_examples_bound offline []
           (Exn OtherException (lit "unambiguous timeout"))
           (lit "Elaine dancing") 4%Z);
    [reflexivity | lia | right; reflexivity].
Defined.

(** C6 (evaluation at the failing input). Every demo response still
    holds the capitalised placeholder "[Topic]" of the second example:
    the replacement looks for "[topic]" only. *)
Theorem capitalised_placeholder_survives (q r : pystr) :
  _get_demo_response q = Return r ->
  contains (lit "[Topic]! It's all connected!") r = true.
Proof.
  intros H. destruct (demo_response_topic _ H) as [t [_ Hr]]. subst r.
  rewrite demo_response_shape.
  do 6 apply contains_app_r. apply contains_app_l.
  vm_compute. reflexivity.
Qed.

Lemma capitalised_placeholder_survives_witness :
  _get_demo_response (lit "George complaining about his job")
    = Return (replace (lit "[topic]") (lit "George") demo_default)
  /\ contains (lit "[Topic]! It's all connected!")
       (replace (lit "[topic]") (lit "George") demo_default) = true.
Proof.
  split; [reflexivity|].
  apply (@capitalised_placeholder_survives
           (lit "George complaining about his job")).
  reflexivity.
Defined.

(** The lower-case placeholders of that response are all gone, and the
    first token stands where they were. *)
Example george_response :
  let r := replace (lit "[topic]") (lit "George") demo_default in
  contains (lit "[topic]") r = false
  /\ contains (lit "I think this whole George thing is a conspiracy.") r = true
  /\ contains (lit "[Topic]") r = true.
Proof. cbn zeta. repeat split; vm_compute; reflexivity. Qed.


(* ================================================================== *)
(** ** Further properties of the retrieval tool *)

(** X1. An argument set that passes the schema keeps the query as given
    and carries a [num_results] from 1 to 10: the value asked for, or 5
    when none was given. *)
Theorem validated_input_in_range
    (q : pystr) (n : option Z) (a : SeinfeldSearchInput) :
  SeinfeldSearchInput_validate q n = Return a ->
  query a = q
  /\ (1 <= num_results a <= 10)%Z
  /\ num_results a = match n with Some k => k | None => 5%Z end.
Proof.
  unfold SeinfeldSearchInput_validate. destruct n as [k|].
  - destruct (1 <=? k)%Z eqn:E1; [|discriminate].
    destruct (k <=? 10)%Z eqn:E2; [|discriminate].
    intros H. inversion H; subst. cbn.
    apply Z.leb_le in E1. apply Z.leb_le in E2. repeat split; lia.
  - intros H. inversion H; subst. cbn. repeat split; lia.
Qed.

Lemma validated_input_in_range_witness :
  SeinfeldSearchInput_validate (lit "Kramer") (Some 7%Z)
    = Return {| query := lit "Kramer"; num_results := 7 |}
  /\ (query {| query := lit "Kramer"; num_results := 7 |} = lit "Kramer"
      /\ (1 <= num_results {| query := lit "Kramer"; num_results := 7 |} <= 10)%Z
      /\ num_results {| query := lit "Kramer"; num_results := 7 |} = 7%Z).
Proof.
  split; [reflexivity|].
  apply (@validated_input_in_range (lit "Kramer") (Some 7%Z)).
  reflexivity.
Defined.

(** X2. The constructor sets the attributes in the order cluster,
    bucket, scope, collection, embeddings, vector store and stops at
    the first failure: each one that is set has all the earlier ones
    set, and the vector store is set exactly when the whole setup went
    through. *)
Theorem init_attributes_in_order (w : World) (tr : trace) :
  let t := fst (snd (__init__ w tr)) in
  implb (is_some (_vector_store t)) (is_some (_embeddings t)) = true
  /\ implb (is_some (_embeddings t)) (is_some (_collection t)) = true
  /\ implb (is_some (_collection t)) (is_some (_scope t)) = true
  /\ implb (is_some (_scope t)) (is_some (_bucket t)) = true
  /\ implb (is_some (_bucket t)) (is_some (_cluster t)) = true
  /\ (is_some (_vector_store t) = true
      <-> fst (connect w (fresh_tool, tr)) = Return tt).
Proof.
  unfold_init; crunch_outcomes;
    repeat split; intros; try reflexivity; try discriminate.
Qed.

(** X3. When every step of the setup succeeds, the constructor ends
    with the six attributes holding the objects returned (and
    [_openai_client] still unset), prints nothing, and has made the calls
    in source order: the connection string, bucket, scope and
    collection names are read from CB_CONNECTION_STRING, CB_BUCKET,
    CB_SCOPE and CB_COLLECTION, the credentials from CB_USERNAME and
    CB_PASSWORD, the embedding settings from EMBEDDING_API_KEY,
    CAPELLA_AI_ENDPOINT and EMBEDDING_MODEL_NAME. *)
Theorem init_success
    (w : World) (tr : trace) (auth opts c b sc col emb vs : obj) :
  import_sdk w = Return tt ->
  PasswordAuthenticator w (getenv w (lit "CB_USERNAME"))
    (getenv w (lit "CB_PASSWORD")) = Return auth ->
  ClusterOptions w auth = Return opts ->
  Cluster w (getenv w (lit "CB_CONNECTION_STRING")) opts = Return c ->
  wait_until_ready w c = Return tt ->
  bucket w c (getenv w (lit "CB_BUCKET")) = Return b ->
  scope w b (getenv w (lit "CB_SCOPE")) = Return sc ->
  collection w sc (getenv w (lit "CB_COLLECTION")) = Return col ->
  OpenAIEmbeddings w (getenv w (lit "EMBEDDING_API_KEY"))
    (getenv w (lit "CAPELLA_AI_ENDPOINT"))
    (getenv w (lit "EMBEDDING_MODEL_NAME")) = Return emb ->
  CouchbaseQueryVectorStore w c emb (getenv w (lit "CB_BUCKET"))
    (getenv w (lit "CB_SCOPE")) (getenv w (lit "CB_COLLECTION")) = Return vs ->
  __init__ w tr
  = (Return tt,
     ({| _cluster := Some c; _bucket := Some b; _scope := Some sc;
         _collection := Some col; _openai_client := None;
         _embeddings := Some emb; _vector_store := Some vs |},
      tr ++ [EvImport;
             EvCluster (getenv w (lit "CB_CONNECTION_STRING"));
             EvWaitUntilReady;
             EvBucket (getenv w (lit "CB_BUCKET"));
             EvScope (getenv w (lit "CB_SCOPE"));
             EvCollection (getenv w (lit "CB_COLLECTION"));
             EvOpenAIEmbeddings;
             EvVectorStore])).
Proof.
  intros H1 H2 H3 H4 H5 H6 H7 H8 H9 H10.
  unfold __init__, _initialize_connections, connect, try_except, call,
    assign, emit.
  unfold bind, modify, lift, ret. cbn [fst snd].
  rewrite H1, H2, H3, H4, H5, H6, H7, H8, H9, H10.
  cbn [fst snd]. rewrite <- !app_assoc. reflexivity.
Qed.

Lemma init_success_witness :
  import_sdk online = Return tt
  /\ PasswordAuthenticator online (getenv online (lit "CB_USERNAME"))
       (getenv online (lit "CB_PASSWORD")) = Return 1%N
  /\ ClusterOptions online 1%N = Return 2%N
  /\ Cluster online (getenv online (lit "CB_CONNECTION_STRING")) 2%N
     = Return 3%N
  /\ wait_until_ready online 3%N = Return tt
  /\ bucket online 3%N (getenv online (lit "CB_BUCKET")) = Return 4%N
  /\ scope online 4%N (getenv online (lit "CB_SCOPE")) = Return 5%N
  /\ collection online 5%N (getenv online (lit "CB_COLLECTION")) = Return 6%N
  /\ OpenAIEmbeddings online (getenv online (lit "EMBEDDING_API_KEY"))
       (getenv online (lit "CAPELLA_AI_ENDPOINT"))
       (getenv online (lit "EMBEDDING_MODEL_NAME")) = Return 7%N
  /\ CouchbaseQueryVectorStore online 3%N 7%N (getenv online (lit "CB_BUCKET"))
       (getenv online (lit "CB_SCOPE")) (getenv online (lit "CB_COLLECTION"))
     = Return 8%N
  /\ __init__ online []
     = (Return tt,
        ({| _cluster := Some 3%N; _bucket := Some 4%N; _scope := Some 5%N;
            _collection := Some 6%N; _openai_client := None;
            _embeddings := Some 7%N; _vector_store := Some 8%N |},
         [] ++ [EvImport;
                EvCluster (getenv online (lit "CB_CONNECTION_STRING"));
                EvWaitUntilReady;
                EvBucket (getenv online (lit "CB_BUCKET"));
                EvScope (getenv online (lit "CB_SCOPE"));
                EvCollection (getenv online (lit "CB_COLLECTION"));
                EvOpenAIEmbeddings;
                EvVectorStore])).
Proof.
  repeat (split; [reflexivity|]).
  apply (@init_success online [] 1%N 2%N 3%N 4%N 5%N 6%N 7%N 8%N);
    reflexivity.
Defined.

(** X4. When the SDK imports fail, the constructor makes no further
    call: the tool keeps its defaults and the trace holds the import
    and the two printed lines, the first carrying the error text. *)
Theorem init_without_sdk (w : World) (tr : trace) (e : exn) :
  import_sdk w = Raise e ->
  __init__ w tr = (Return tt, (fresh_tool, tr ++ EvImport :: init_warning e)).
Proof.
  intros H.
  unfold __init__, _initialize_connections, connect, try_except, call,
    print, emit.
  unfold bind, modify, lift, ret. cbn [fst snd]. rewrite H.
  cbn [fst snd]. unfold init_warning. rewrite <- !app_assoc. reflexivity.
Qed.

Lemma init_without_sdk_witness :
  import_sdk no_sdk
    = Raise (Exn ImportError (lit "No module named 'couchbase'"))
  /\ __init__ no_sdk []
     = (Return tt,
        (fresh_tool,
         [] ++ EvImport
            :: init_warning
                 (Exn ImportError (lit "No module named 'couchbase'")))).
Proof.
  split; [reflexivity|].
  apply (@init_without_sdk no_sdk []). reflexivity.
Defined.

(** X5. When the cluster object is created but does not become ready,
    the constructor leaves the tool holding that cluster and nothing
    else: [_cluster] is set although the tool is in demo mode, and no
    bucket, scope, collection, embedding client or vector store is
    asked for. *)
Theorem init_cluster_not_ready
    (w : World) (tr : trace) (auth opts c : obj) (e : exn) :
  import_sdk w = Return tt ->
  PasswordAuthenticator w (getenv w (lit "CB_USERNAME"))
    (getenv w (lit "CB_PASSWORD")) = Return auth ->
  ClusterOptions w auth = Return opts ->
  Cluster w (getenv w (lit "CB_CONNECTION_STRING")) opts = Return c ->
  wait_until_ready w c = Raise e ->
  __init__ w tr
  = (Return tt,
     (set_cluster c fresh_tool,
      tr ++ [EvImport;
             EvCluster (getenv w (lit "CB_CONNECTION_STRING"));
             EvWaitUntilReady] ++ init_warning e)).
Proof.
  intros H1 H2 H3 H4 H5.
  unfold __init__, _initialize_connections, connect, try_except, call,
    print, assign, emit.
  unfold bind, modify, lift, ret. cbn [fst snd].
  rewrite H1, H2, H3, H4, H5.
  cbn [fst snd]. unfold init_warning. rewrite <- !app_assoc. reflexivity.
Qed.

Lemma init_cluster_not_ready_witness :
  import_sdk offline = Return tt
  /\ PasswordAuthenticator offline (getenv offline (lit "CB_USERNAME"))
       (getenv offline (lit "CB_PASSWORD")) = Return 1%N
  /\ ClusterOptions offline 1%N = Return 2%N
  /\ Cluster offline (getenv offline (lit "CB_CONNECTION_STRING")) 2%N
     = Return 3%N
  /\ wait_until_ready offline 3%N
     = Raise (Exn OtherException (lit "unambiguous timeout"))
  /\ __init__ offline []
     = (Return tt,
        (set_cluster 3%N fresh_tool,
         [] ++ [EvImport;
                EvCluster (getenv offline (lit "CB_CONNECTION_STRING"));
                EvWaitUntilReady]
            ++ init_warning (Exn OtherException (lit "unambiguous timeout")))).
Proof.
  repeat (split; [reflexivity|]).
  apply (@init_cluster_not_ready offline [] 1%N 2%N 3%N); reflexivity.
Defined.




(** X8. On a tool whose [_cluster], [_openai_client] and
    [_vector_store] are all set, [_run] makes exactly one similarity
    search for [n] hits on the three metadata fields; hits are returned
    formatted, and an empty answer of the index falls back to the demo
    response instead of reporting zero results. *)
Theorem run_with_client
    (w : World) (q : pystr) (n : Z) (tool : SeinfeldRAGTool) (tr : trace)
    (c oc vs : obj) (rs : list result) :
  _cluster tool = Some c ->
  _openai_client tool = Some oc ->
  _vector_store tool = Some vs ->
  similarity_search w (List.length tr) vs q n search_fields = Return rs ->
  _run w q n (tool, tr)
  = (match rs with
     | [] => _get_demo_response q
     | _ => Return (_format_results rs q)
     end,
     (tool, tr ++ [EvSimilaritySearch q n search_fields])).
Proof.
  intros Hc Ho Hv Hs.
  unfold _run, get. unfold bind at 1. cbn [fst snd].
  rewrite Hc, Ho. cbn [is_none orb].
  unfold bind. rewrite (vector_search_returns w tool tr q n Hv Hs).
  destruct rs; reflexivity.
Qed.

Lemma run_with_client_witness :
  _cluster wired_tool = Some 3%N
  /\ _openai_client wired_tool = Some 9%N
  /\ _vector_store wired_tool = Some 8%N
  /\ similarity_search online (List.length (@nil event)) 8%N
       (lit "George at work") 2%Z search_fields = Return two_hits
  /\ _run online (lit "George at work") 2%Z (wired_tool, [])
     = (match two_hits with
        | [] => _get_demo_response (lit "George at work")
        | _ => Return (_format_results two_hits (lit "George at work"))
        end,
        (wired_tool,
         [] ++ [EvSimilaritySearch (lit "George at work") 2%Z search_fields])).
Proof.
  repeat (split; [reflexivity|]).
  apply (@run_with_client online (lit "George at work") 2%Z wired_tool []
           3%N 9%N 8%N two_hits); reflexivity.
Defined.


(* ================================================================== *)
(** ** Further properties of the formatted and the demo response *)

Lemma startswith_self_app (p r : pystr) : startswith p (p ++ r) = true.
Proof.
  induction p as [|a p IH]; cbn; [reflexivity|].
  rewrite N.eqb_refl, IH. reflexivity.
Qed.

Ltac lit_lengths :=
  repeat match goal with
         | |- context [List.length (lit ?s)] =>
             let n := eval vm_compute in (List.length (lit s)) in
             change (List.length (lit s)) with n
         | H : context [List.length (lit ?s)] |- _ =>
             let n := eval vm_compute in (List.length (lit s)) in
             change (List.length (lit s)) with n in H
         end;
  change (List.length nl) with 1 in *.

(** X10. However long the dialogue of a hit is, its entry in the
    formatted response is bounded: at most 1000 characters of the
    dialogue are shown, so the entry is no longer than 1095 characters
    plus the number, the title, the description and the score. *)
Theorem format_one_bounded (i : nat) (r : result) :
  List.length (format_one i r)
  <= 1095 + List.length (str_of_nat i)
     + List.length (metadata_text "title" r)
     + List.length (metadata_text "description" r)
     + List.length (or_default (r_score r) (lit "N/A")).
Proof.
  unfold format_one, metadata_text.
  set (md := or_default (r_metadata r) []).
  set (txt := or_default (r_text r) []).
  set (sc := or_default (r_score r) (lit "N/A")).
  assert (Hm :
    List.length
      match md with
      | [] => []
      | _ :: _ =>
          match dict_get (lit "title") md with
          | Some t => lit "**Episode:** " ++ t ++ nl
          | None => []
          end ++
          match dict_get (lit "description") md with
          | Some d => lit "**Context:** " ++ d ++ nl
          | None => []
          end
      end
    <= 28 + List.length (or_default (dict_get (lit "title") md) [])
       + List.length (or_default (dict_get (lit "description") md) [])).
  { destruct md as [|kv md']; [cbn [List.length]; lia|].
    set (m := kv :: md').
    destruct (dict_get (lit "title") m), (dict_get (lit "description") m);
      unfold or_default; rewrite ?length_app; lit_lengths;
      cbn [List.length]; lia. }
  assert (Ht :
    List.length
      (if truthy txt
       then lit "**Dialogue:**" ++ nl ++ lit "```" ++ nl ++ firstn 1000 txt
            ++ (if Nat.ltb 1000 (List.length txt) then lit "..." else [])
            ++ nl ++ lit "```" ++ nl
       else [])
    <= 1026).
  { destruct (truthy txt); [|cbn [List.length]; lia].
    rewrite !length_app, length_firstn.
    pose proof (Nat.le_min_l 1000 (List.length txt)) as H1.
    destruct (Nat.ltb 1000 (List.length txt)); lit_lengths;
      cbn [List.length]; lia. }
  rewrite !length_app. lit_lengths. lia.
Qed.

Lemma split_from_token (t : pystr) :
  forall tok c rest,
    no_space t = true ->
    isspace c = true ->
    tok ++ t <> [] ->
    split_from tok (t ++ c :: rest) = (tok ++ t) :: split_from [] rest.
Proof.
  induction t as [|a t IH]; intros tok c rest Ht Hc Hne; cbn.
  - rewrite Hc. rewrite app_nil_r in *.
    destruct tok; [congruence|reflexivity].
  - cbn [no_space forallb] in Ht. apply andb_true_iff in Ht.
    destruct Ht as [Ha Ht]. apply negb_true_iff in Ha. rewrite Ha.
    rewrite (IH (tok ++ [a]) c rest Ht Hc).
    + rewrite <- app_assoc. reflexivity.
    + destruct tok; discriminate.
Qed.

Lemma split_from_leading (ws s : pystr) :
  forallb isspace ws = true ->
  split_from [] (ws ++ s) = split_from [] s.
Proof.
  induction ws as [|c ws IH]; intros H; [reflexivity|].
  cbn in *. apply andb_true_iff in H. destruct H as [Hc Hw].
  rewrite Hc. apply IH, Hw.
Qed.

Lemma split_from_single (t : pystr) :
  forall tok,
    no_space t = true ->
    tok ++ t <> [] ->
    split_from tok t = [tok ++ t].
Proof.
  induction t as [|a t IH]; intros tok Ht Hne; cbn.
  - rewrite app_nil_r in *. destruct tok; [congruence|reflexivity].
  - cbn [no_space forallb] in Ht. apply andb_true_iff in Ht.
    destruct Ht as [Ha Ht]. apply negb_true_iff in Ha. rewrite Ha.
    rewrite (IH (tok ++ [a]) Ht).
    + rewrite <- app_assoc. reflexivity.
    + destruct tok; discriminate.
Qed.

(** X11. Only the first word of the query reaches the demo response:
    whitespace before it and everything from the first whitespace after
    it are ignored. *)
Theorem demo_response_first_word (ws t rest : pystr) (c : char) :
  forallb isspace ws = true ->
  t <> [] ->
  no_space t = true ->
  isspace c = true ->
  _get_demo_response (ws ++ t ++ c :: rest)
  = Return (replace (lit "[topic]") t demo_default)
  /\ _get_demo_response (ws ++ t ++ c :: rest) = _get_demo_response t.
Proof.
  intros Hw Hne Ht Hc.
  assert (E1 : _get_demo_response (ws ++ t ++ c :: rest)
               = Return (replace (lit "[topic]") t demo_default)).
  { unfold _get_demo_response, split.
    rewrite (split_from_leading _ _ Hw).
    rewrite (split_from_token t [] c rest Ht Hc) by (cbn; exact Hne).
    replace (truthy (ws ++ t ++ c :: rest)) with true; [reflexivity|].
    destruct ws; [destruct t; [congruence|reflexivity]|reflexivity]. }
  split; [exact E1|]. rewrite E1.
  unfold _get_demo_response, split.
  rewrite (split_from_single t [] Ht) by (cbn; exact Hne).
  destruct t; [congruence|reflexivity].
Qed.

Lemma demo_response_first_word_witness :
  forallb isspace (lit "  ") = true
  /\ lit "Newman" <> []
  /\ no_space (lit "Newman") = true
  /\ isspace 9%N = true
  /\ (_get_demo_response (lit "  " ++ lit "Newman" ++ 9%N :: lit "and the mail")
        = Return (replace (lit "[topic]") (lit "Newman") demo_default)
      /\ _get_demo_response (lit "  " ++ lit "Newman" ++ 9%N :: lit "and the mail")
         = _get_demo_response (lit "Newman")).
Proof.
  split; [reflexivity|]. split; [discriminate|].
  split; [reflexivity|]. split; [reflexivity|].
  apply (@demo_response_first_word (lit "  ") (lit "Newman")
           (lit "and the mail") 9%N);
    [reflexivity | discriminate | reflexivity | reflexivity].
Defined.

Lemma demo_response_is (q : pystr) (r : pystr) :
  _get_demo_response q = Return r ->
  r = replace (lit "[topic]") (topic_of q) demo_default.
Proof.
  unfold _get_demo_response, topic_of, split, index0.
  destruct q as [|c q']; cbn [truthy].
  - intros H. inversion H. reflexivity.
  - destruct (split_from [] (c :: q')) as [|t l]; [discriminate|].
    intros H. inversion H. reflexivity.
Qed.

(** X12. The demo response is the 1497 characters of the template
    outside its four placeholders plus four copies of the topic: its
    length is 1497 plus four times the length of the first word of the
    query (of "this" for the empty query). *)
Theorem demo_response_length (q r : pystr) :
  _get_demo_response q = Return r ->
  List.length r = 1497 + 4 * List.length (topic_of q).
Proof.
  intros H. rewrite (demo_response_is _ H).
  rewrite demo_response_shape. rewrite !length_app.
  change (List.length (piece 0)) with 239.
  change (List.length (piece 1)) with 154.
  change (List.length (piece 2)) with 310.
  change (List.length (piece 3)) with 449.
  change (List.length (piece 4)) with 345.
  lia.
Qed.

Lemma demo_response_length_witness :
  _get_demo_response (lit "Elaine dancing")
    = Return (replace (lit "[topic]") (lit "Elaine") demo_default)
  /\ List.length (replace (lit "[topic]") (lit "Elaine") demo_default)
     = 1497 + 4 * List.length (topic_of (lit "Elaine dancing")).
Proof.
  split; [reflexivity|].
  apply (@demo_response_length (lit "Elaine dancing")). reflexivity.
Defined.

(** X13. Every demo response says what it is: it carries the
    "(Demo Mode)" heading and the note that Couchbase is not available,
    also when it is returned because the index had no hit. *)
Theorem demo_response_is_labelled (q r : pystr) :
  _get_demo_response q = Return r ->
  startswith (nl ++ lit "## Seinfeld Script Search Results (Demo Mode)" ++ nl) r
  = true
  /\ contains
       (lit "**Note:** Running in demo mode - Couchbase connection not available.")
       r = true.
Proof.
  intros H. rewrite (demo_response_is _ H), demo_response_shape. split.
  - apply startswith_app_true. vm_compute. reflexivity.
  - apply contains_app_l. vm_compute. reflexivity.
Qed.

Lemma demo_response_is_labelled_witness :
  _get_demo_response []
    = Return (replace (lit "[topic]") (lit "this") demo_default)
  /\ (startswith
        (nl ++ lit "## Seinfeld Script Search Results (Demo Mode)" ++ nl)
        (replace (lit "[topic]") (lit "this") demo_default) = true
      /\ contains
           (lit "**Note:** Running in demo mode - Couchbase connection not available.")
           (replace (lit "[topic]") (lit "this") demo_default) = true).
Proof.
  split; [reflexivity|].
  apply (@demo_response_is_labelled []). reflexivity.
Defined.

Lemma split_from_head_forallb (P : char -> bool) (s : pystr) :
  forall tok t l,
    forallb P tok = true ->
    forallb P s = true ->
    split_from tok s = t :: l ->
    forallb P t = true.
Proof.
  induction s as [|c s IH]; intros tok t l Htok Hs H; cbn in H.
  - destruct tok as [|a tok']; [discriminate|]. inversion H; subst.
    assumption.
  - cbn in Hs. apply andb_true_iff in Hs. destruct Hs as [Hc Hs].
    destruct (isspace c).
    + destruct tok as [|a tok'].
      * eapply IH; [| |exact H]; [reflexivity|assumption].
      * inversion H; subst. assumption.
    + eapply IH; [| |exact H]; [|assumption].
      rewrite forallb_app, Htok. cbn. rewrite Hc. reflexivity.
Qed.

Lemma count_skips (pat topic rest : pystr) (a : char) :
  startswith [a] pat = true ->
  forallb (fun c => negb (c =? a)%N) topic = true ->
  count pat (topic ++ rest) = count pat rest.
Proof.
  intros Hp Ht. induction topic as [|c t IH]; [reflexivity|].
  cbn in Ht. apply andb_true_iff in Ht. destruct Ht as [Hc Ht].
  cbn [app count]. rewrite (IH Ht).
  destruct pat as [|b pat']; [discriminate|].
  cbn in Hp. rewrite andb_true_r in Hp. apply N.eqb_eq in Hp. subst b.
  cbn [startswith]. apply negb_true_iff in Hc.
  rewrite N.eqb_sym, Hc. reflexivity.
Qed.

Lemma count_zero_contains (pat s : pystr) :
  pat <> [] ->
  count pat s = 0 ->
  contains pat s = false.
Proof.
  intros Hp. induction s as [|c s IH]; cbn; intros H.
  - destruct pat; [congruence|reflexivity].
  - destruct (startswith pat (c :: s)); [discriminate|].
    cbn in H. rewrite (IH H). reflexivity.
Qed.

(** X14. When the query holds no '[', the response has no "[topic]"
    left in it: all four lower-case placeholders of the template are
    replaced and the replacement creates no new one. *)
Theorem demo_response_no_placeholder_left (q r : pystr) :
  forallb (fun c => negb (c =? 91)%N) q = true ->
  _get_demo_response q = Return r ->
  contains (lit "[topic]") r = false.
Proof.
  intros Hq H.
  assert (Ht : forallb (fun c => negb (c =? 91)%N) (topic_of q) = true).
  { unfold topic_of, split.
    destruct (split_from [] q) as [|t l] eqn:E; [reflexivity|].
    eapply split_from_head_forallb; [| |exact E]; [reflexivity|assumption]. }
  rewrite (demo_response_is _ H), demo_response_shape.
  apply count_zero_contains; [discriminate|].
  set (t := topic_of q) in *.
  rewrite (count_app (lit "[topic]") (piece 0)) by (vm_compute; reflexivity).
  rewrite (count_skips (lit "[topic]") t _ 91%N eq_refl Ht).
  rewrite (count_app (lit "[topic]") (piece 1)) by (vm_compute; reflexivity).
  rewrite (count_skips (lit "[topic]") t _ 91%N eq_refl Ht).
  rewrite (count_app (lit "[topic]") (piece 2)) by (vm_compute; reflexivity).
  rewrite (count_skips (lit "[topic]") t _ 91%N eq_refl Ht).
  rewrite (count_app (lit "[topic]") (piece 3)) by (vm_compute; reflexivity).
  rewrite (count_skips (lit "[topic]") t _ 91%N eq_refl Ht).
  vm_compute. reflexivity.
Qed.

Lemma demo_response_no_placeholder_left_witness :
  forallb (fun c => negb (c =? 91)%N) (lit "Kramer's new scheme") = true
  /\ _get_demo_response (lit "Kramer's new scheme")
     = Return (replace (lit "[topic]") (lit "Kramer's") demo_default)
  /\ contains (lit "[topic]")
       (replace (lit "[topic]") (lit "Kramer's") demo_default) = false.
Proof.
  split; [reflexivity|]. split; [reflexivity|].
  apply (@demo_response_no_placeholder_left (lit "Kramer's new scheme"));
    reflexivity.
Defined.


(* ================================================================== *)
(** ** Properties of [get_llm], [run_crew], [setup_environment] and [main] *)

(** The constructor only appends to the trace, and what it appends
    does not depend on what was there: connection calls and printed
    lines. *)
Lemma init_trace (w : World) (tr : trace) :
  snd (snd (__init__ w tr)) = tr ++ init_events w
  /\ forallb (fun e => is_connection e || is_print e) (init_events w) = true.
Proof.
  unfold init_events. unfold_init; crunch_outcomes;
    rewrite <- ?app_assoc; split; reflexivity.
Qed.

Lemma run_crew_trace (w : World) (t : pystr) (tr : trace) :
  mkdir_output w = Return tt ->
  run_crew w t tr
  = (crew_kickoff w t,
     tr ++ [EvMkdir (lit "output")] ++ init_events w ++ [EvKickoff t]).
Proof.
  intros Hm. rewrite (run_crew_kicks_off w t tr Hm).
  rewrite (proj1 (init_trace w _)). rewrite <- !app_assoc. reflexivity.
Qed.

Lemma run_crew_no_directory (w : World) (t : pystr) (tr : trace) (e : exn) :
  mkdir_output w = Raise e ->
  run_crew w t tr = (Raise e, tr ++ [EvMkdir (lit "output")]).
Proof.
  intros Hm. unfold run_crew, callT, emitT, bind, modify, lift.
  rewrite Hm. reflexivity.
Qed.

(** X15. [get_llm] hands the model a name that starts with "openai/"
    whenever LLM_MODEL_NAME is set and not empty: a name that has the
    prefix is kept as it is, any other gets it put in front.  The key
    and the endpoint come from LLM_API_KEY and CAPELLA_AI_ENDPOINT. *)
Theorem get_llm_prefixes_model (w : World) (m : pystr) :
  getenv w (lit "LLM_MODEL_NAME") = Some m ->
  m <> [] ->
  model (get_llm w)
    = Some (if startswith (lit "openai/") m then m else lit "openai/" ++ m)
  /\ (exists m', model (get_llm w) = Some m'
                 /\ startswith (lit "openai/") m' = true)
  /\ api_key (get_llm w) = getenv w (lit "LLM_API_KEY")
  /\ base_url (get_llm w) = getenv w (lit "CAPELLA_AI_ENDPOINT").
Proof.
  intros Hm Hne. unfold get_llm. rewrite Hm. cbn [model api_key base_url].
  destruct m as [|c m']; [congruence|]. cbn [truthy andb].
  destruct (startswith (lit "openai/") (c :: m')) eqn:E; cbn [negb].
  - repeat split. exists (c :: m'). split; [reflexivity|exact E].
  - repeat split. eexists. split; [reflexivity|].
    apply startswith_self_app.
Qed.

Lemma get_llm_prefixes_model_witness :
  getenv online (lit "LLM_MODEL_NAME") = Some (lit "demos")
  /\ lit "demos" <> []
  /\ (model (get_llm online)
        = Some (if startswith (lit "openai/") (lit "demos")
                then lit "demos" else lit "openai/" ++ lit "demos")
      /\ (exists m', model (get_llm online) = Some m'
                     /\ startswith (lit "openai/") m' = true)
      /\ api_key (get_llm online) = getenv online (lit "LLM_API_KEY")
      /\ base_url (get_llm online) = getenv online (lit "CAPELLA_AI_ENDPOINT")).
Proof.
  split; [reflexivity|]. split; [discriminate|].
  apply (@get_llm_prefixes_model online (lit "demos"));
    [reflexivity|discriminate].
Defined.

(** X16. When the output directory cannot be made, [run_crew] raises
    that error at once: the retrieval tool is not built and the crew is
    not started. *)
Theorem run_crew_stops_without_directory
    (w : World) (t : pystr) (tr : trace) (e : exn) :
  mkdir_output w = Raise e ->
  exists evs,
    run_crew w t tr = (Raise e, tr ++ evs)
    /\ existsb is_connection evs = false
    /\ existsb is_kickoff evs = false.
Proof.
  intros Hm. exists [EvMkdir (lit "output")].
  rewrite (run_crew_no_directory w t tr Hm). repeat split.
Qed.

Lemma run_crew_stops_without_directory_witness :
  mkdir_output read_only_cwd
    = Raise (Exn OtherException (lit "[Errno 13] Permission denied"))
  /\ exists evs,
       run_crew read_only_cwd (lit "The Parking Garage") []
       = (Raise (Exn OtherException (lit "[Errno 13] Permission denied")),
          [] ++ evs)
       /\ existsb is_connection evs = false
       /\ existsb is_kickoff evs = false.
Proof.
  split; [reflexivity|].
  apply (@run_crew_stops_without_directory read_only_cwd
           (lit "The Parking Garage") []).
  reflexivity.
Defined.



(** X18. [setup_environment] never stops the program.  It prints its
    five-line warning exactly when OPENAI_API_KEY is unset or empty, and
    nothing otherwise; no other variable plays a part. *)
Theorem setup_environment_warns (w : World) (tr : trace) :
  setup_environment w tr
  = (Return tt,
     if falsy (getenv w (lit "OPENAI_API_KEY"))
     then tr ++ [EvPrint missing_header;
                 EvPrint (lit "   - OPENAI_API_KEY");
                 EvPrint (nl ++ lit "The script will run in demo mode without Couchbase RAG.");
                 EvPrint (lit "To enable full functionality, create a .env file with:");
                 EvPrint env_file_example]
     else tr).
Proof.
  unfold setup_environment, missing_vars, required_vars. cbn [filter].
  destruct (falsy (getenv w (lit "OPENAI_API_KEY"))).
  - unfold print_vars, emitT, bind, modify, ret.
    rewrite <- !app_assoc. reflexivity.
  - reflexivity.
Qed.

Example env_file_example_length : List.length env_file_example = 374.
Proof. reflexivity. Qed.

Lemma generate_and_save_success
    (w : World) (a : Args) (t raw : pystr) (tr : trace) :
  import_crew w = Return tt ->
  mkdir_output w = Return tt ->
  crew_kickoff w t = Return raw ->
  write_file w (output a) (script_file t raw) = Return tt ->
  generate_and_save w a t tr
  = (Return Completed,
     tr ++ [EvMkdir (lit "output")] ++ init_events w
        ++ [EvKickoff t; EvWriteFile (output a) (script_file t raw)]).
Proof.
  intros Hi Hm Hk Hw.
  unfold generate_and_save, try_except. unfold bind at 1. unfold lift at 1.
  rewrite Hi. unfold bind at 1.
  rewrite (run_crew_trace w t tr Hm), Hk.
  unfold callT, emitT, bind, modify, lift, ret.
  fold (script_file t raw). rewrite Hw.
  rewrite <- !app_assoc. reflexivity.
Qed.

(** X19. The [try] block of [main] lets no error out: whatever fails
    in it, the outcome is [sys.exit(1)].  It completes exactly when the
    crew module imports, the output directory is made, the crew returns
    a script and the file is written. *)
Theorem generate_and_save_never_raises
    (w : World) (a : Args) (t : pystr) (tr : trace) :
  exists e tr',
    generate_and_save w a t tr = (Return e, tr')
    /\ (e = Completed \/ e = SystemExit 1)
    /\ (e = Completed
        <-> import_crew w = Return tt
            /\ mkdir_output w = Return tt
            /\ exists raw,
                 crew_kickoff w t = Return raw
                 /\ write_file w (output a) (script_file t raw) = Return tt).
Proof.
  destruct (import_crew w) as [[]|e0] eqn:Hi.
  2:{ eexists (SystemExit 1), _. split.
      - unfold generate_and_save, try_except. unfold bind at 1.
        unfold lift at 1. rewrite Hi. reflexivity.
      - split; [right; reflexivity|].
        split; [discriminate|]. intros [H _]. discriminate. }
  destruct (mkdir_output w) as [[]|e1] eqn:Hm.
  2:{ eexists (SystemExit 1), _. split.
      - unfold generate_and_save, try_except. unfold bind at 1.
        unfold lift at 1. rewrite Hi. unfold bind at 1.
        rewrite (run_crew_no_directory w t tr Hm). reflexivity.
      - split; [right; reflexivity|].
        split; [discriminate|]. intros [_ [H _]]. discriminate. }
  destruct (crew_kickoff w t) as [raw|e2] eqn:Hk.
  2:{ eexists (SystemExit 1), _. split.
      - unfold generate_and_save, try_except. unfold bind at 1.
        unfold lift at 1. rewrite Hi. unfold bind at 1.
        rewrite (run_crew_trace w t tr Hm), Hk. reflexivity.
      - split; [right; reflexivity|].
        split; [discriminate|]. intros [_ [_ [raw [H _]]]]. discriminate. }
  destruct (write_file w (output a) (script_file t raw)) as [[]|e3] eqn:Hw.
  - eexists Completed, _. split.
    + apply (@generate_and_save_success w a t raw tr Hi Hm Hk Hw).
    + split; [left; reflexivity|]. split; [|reflexivity].
      intros _. repeat split. exists raw. split; [reflexivity|exact Hw].
  - eexists (SystemExit 1), _. split.
    + unfold generate_and_save, try_except. unfold bind at 1.
      unfold lift at 1. rewrite Hi. unfold bind at 1.
      rewrite (run_crew_trace w t tr Hm), Hk.
      unfold callT, emitT, bind, modify, lift, ret.
      fold (script_file t raw). rewrite Hw. reflexivity.
    + split; [right; reflexivity|].
      split; [discriminate|]. intros [_ [_ [raw' [H1 H2]]]].
      inversion H1; subst raw'. rewrite Hw in H2. discriminate.
Qed.

(** X20. When the crew raises, [main]'s [try] block ends in
    [sys.exit(1)] and no file is written: no partial script is left
    behind. *)
Theorem crew_failure_writes_nothing
    (w : World) (a : Args) (t : pystr) (tr : trace) (e : exn) :
  crew_kickoff w t = Raise e ->
  exists evs,
    generate_and_save w a t tr = (Return (SystemExit 1), tr ++ evs)
    /\ existsb is_write evs = false.
Proof.
  intros Hk.
  assert (Hnw : existsb is_write (init_events w) = false).
  { pose proof (proj2 (init_trace w [])) as H.
    induction (init_events w) as [|x l IH]; [reflexivity|].
    cbn in H. apply andb_true_iff in H. destruct H as [Hx Hl].
    cbn. rewrite (IH Hl). destruct x; cbn in *; try reflexivity; discriminate. }
  unfold generate_and_save, try_except. unfold bind at 1. unfold lift at 1.
  destruct (import_crew w) as [[]|e0].
  2:{ exists []. rewrite app_nil_r. split; reflexivity. }
  unfold bind at 1.
  destruct (mkdir_output w) as [[]|e1] eqn:Hm.
  - rewrite (run_crew_trace w t tr Hm), Hk.
    eexists. split; [reflexivity|].
    cbn [app existsb is_write orb]. rewrite existsb_app, Hnw. reflexivity.
  - rewrite (run_crew_no_directory w t tr Hm).
    eexists. split; reflexivity.
Qed.

Lemma crew_failure_writes_nothing_witness :
  crew_kickoff crew_fails (lit "The Parking Garage")
    = Raise (Exn OtherException (lit "AuthenticationError"))
  /\ exists evs,
       generate_and_save crew_fails (cli (Some (lit "The Parking Garage")))
         (lit "The Parking Garage") []
       = (Return (SystemExit 1), [] ++ evs)
       /\ existsb is_write evs = false.
Proof.
  split; [reflexivity|].
  apply (@crew_failure_writes_nothing crew_fails
           (cli (Some (lit "The Parking Garage")))
           (lit "The Parking Garage") []
           (Exn OtherException (lit "AuthenticationError"))).
  reflexivity.
Defined.

Lemma lstrip_head (s : pystr) (c : char) (r : pystr) :
  lstrip s = c :: r -> isspace c = false.
Proof.
  induction s as [|a s IH]; cbn; [discriminate|].
  destruct (isspace a) eqn:E; [exact IH|].
  intros H. inversion H; subst. exact E.
Qed.

Lemma lstrip_snoc (x : pystr) (c : char) :
  isspace c = false -> lstrip (x ++ [c]) = lstrip x ++ [c].
Proof.
  intros Hc. induction x as [|a x IH]; cbn.
  - rewrite Hc. reflexivity.
  - destruct (isspace a); [exact IH|reflexivity].
Qed.

(** A stripped string that is not empty begins and ends with a
    character that is not whitespace. *)
Lemma strip_ends (s : pystr) :
  strip s <> [] ->
  exists c r,
    strip s = c :: r /\ isspace c = false /\ isspace (last r c) = false.
Proof.
  unfold strip, rstrip. intros Hne.
  destruct (lstrip s) as [|c r] eqn:E; [cbn in Hne; congruence|].
  pose proof (lstrip_head _ E) as Hc.
  cbn [rev]. rewrite (lstrip_snoc (rev r) c Hc), rev_app_distr. cbn [rev app].
  exists c, (rev (lstrip (rev r))). split; [reflexivity|]. split; [exact Hc|].
  destruct (lstrip (rev r)) as [|d y] eqn:Ey; [exact Hc|].
  cbn [rev]. rewrite last_last. apply (lstrip_head _ Ey).
Qed.

(** X21. A theme given on the command line, without --interactive, is
    used as typed: no prompt is shown and the theme is neither stripped
    nor checked for blankness.  When every step succeeds [main]
    completes having made the two directories, built the tool, started
    the crew on that theme and written the heading, the theme and the
    script to the output path. *)
Theorem main_runs_theme_as_typed
    (w : World) (a : Args) (t raw : pystr) (tr : trace) :
  interactive a = false ->
  theme a = Some t ->
  t <> [] ->
  mkdir_parents w (output a) = Return tt ->
  import_crew w = Return tt ->
  mkdir_output w = Return tt ->
  crew_kickoff w t = Return raw ->
  write_file w (output a) (script_file t raw) = Return tt ->
  main w a tr
  = (Return Completed,
     tr ++ [EvMkdir (output a); EvMkdir (lit "output")] ++ init_events w
        ++ [EvKickoff t; EvWriteFile (output a) (script_file t raw)]).
Proof.
  intros Hi Ht Hne Hp Hc Hm Hk Hw.
  unfold main. rewrite Hi, Ht. cbn [falsy orb or_default].
  destruct t as [|c t']; [congruence|]. cbn [truthy negb].
  unfold callT, emitT. unfold bind, modify, lift. rewrite Hp.
  rewrite (@generate_and_save_success w a (c :: t') raw _ Hc Hm Hk Hw).
  rewrite <- !app_assoc. reflexivity.
Qed.

Lemma main_runs_theme_as_typed_witness :
  interactive (cli (Some (lit "   "))) = false
  /\ theme (cli (Some (lit "   "))) = Some (lit "   ")
  /\ lit "   " <> []
  /\ mkdir_parents offline (output (cli (Some (lit "   ")))) = Return tt
  /\ import_crew offline = Return tt
  /\ mkdir_output offline = Return tt
  /\ crew_kickoff offline (lit "   ") = Return (lit "INT. MONK'S - DAY")
  /\ write_file offline (output (cli (Some (lit "   "))))
       (script_file (lit "   ") (lit "INT. MONK'S - DAY")) = Return tt
  /\ main offline (cli (Some (lit "   "))) []
     = (Return Completed,
        [] ++ [EvMkdir (output (cli (Some (lit "   "))));
               EvMkdir (lit "output")]
           ++ init_events offline
           ++ [EvKickoff (lit "   ");
               EvWriteFile (output (cli (Some (lit "   "))))
                 (script_file (lit "   ") (lit "INT. MONK'S - DAY"))]).
Proof.
  split; [reflexivity|]. split; [reflexivity|]. split; [discriminate|].
  repeat (split; [reflexivity|]).
  apply (@main_runs_theme_as_typed offline (cli (Some (lit "   ")))
           (lit "   ") (lit "INT. MONK'S - DAY") []);
    try reflexivity; discriminate.
Defined.

(** X22. When [main] prompts (no theme, an empty theme, or
    --interactive, in which case a theme given as argument is
    discarded), the theme is the typed line stripped: the crew receives
    a theme that neither begins nor ends with whitespace.  When every
    step succeeds [main] completes, the prompt being its first event. *)
Theorem main_strips_typed_theme
    (w : World) (a : Args) (line raw : pystr) (tr : trace) :
  interactive a || falsy (theme a) = true ->
  input w = Return line ->
  strip line <> [] ->
  mkdir_parents w (output a) = Return tt ->
  import_crew w = Return tt ->
  mkdir_output w = Return tt ->
  crew_kickoff w (strip line) = Return raw ->
  write_file w (output a) (script_file (strip line) raw) = Return tt ->
  main w a tr
  = (Return Completed,
     tr ++ [EvInput; EvMkdir (output a); EvMkdir (lit "output")]
        ++ init_events w
        ++ [EvKickoff (strip line);
            EvWriteFile (output a) (script_file (strip line) raw)])
  /\ exists c r,
       strip line = c :: r
       /\ isspace c = false
       /\ isspace (last r c) = false.
Proof.
  intros Hi Hl Hne Hp Hc Hm Hk Hw. split; [|apply strip_ends, Hne].
  unfold main. rewrite Hi.
  unfold callT, emitT. unfold bind at 1 2. unfold modify, lift at 1.
  rewrite Hl.
  destruct (strip line) as [|c t'] eqn:Es; [congruence|].
  cbn [truthy negb].
  unfold bind, modify, lift. rewrite Hp.
  rewrite (@generate_and_save_success w a (c :: t') raw _ Hc Hm Hk Hw).
  rewrite <- !app_assoc. reflexivity.
Qed.

Lemma main_strips_typed_theme_witness :
  interactive (cli None) || falsy (theme (cli None)) = true
  /\ input typing = Return (lit "  Kramer opens a museum  ")
  /\ strip (lit "  Kramer opens a museum  ") <> []
  /\ mkdir_parents typing (output (cli None)) = Return tt
  /\ import_crew typing = Return tt
  /\ mkdir_output typing = Return tt
  /\ crew_kickoff typing (strip (lit "  Kramer opens a museum  "))
     = Return (lit "INT. MONK'S - DAY")
  /\ write_file typing (output (cli None))
       (script_file (strip (lit "  Kramer opens a museum  "))
          (lit "INT. MONK'S - DAY")) = Return tt
  /\ (main typing (cli None) []
        = (Return Completed,
           [] ++ [EvInput; EvMkdir (output (cli None)); EvMkdir (lit "output")]
              ++ init_events typing
              ++ [EvKickoff (strip (lit "  Kramer opens a museum  "));
                  EvWriteFile (output (cli None))
                    (script_file (strip (lit "  Kramer opens a museum  "))
                       (lit "INT. MONK'S - DAY"))])
      /\ exists c r,
           strip (lit "  Kramer opens a museum  ") = c :: r
           /\ isspace c = false
           /\ isspace (last r c) = false).
Proof.
  split; [reflexivity|]. split; [reflexivity|]. split; [discriminate|].
  repeat (split; [reflexivity|]).
  apply (@main_strips_typed_theme typing (cli None)
           (lit "  Kramer opens a museum  ") (lit "INT. MONK'S - DAY") []);
    try reflexivity; discriminate.
Defined.

(** X23. An error of the prompt is not turned into an exit status:
    when [input()] raises (end of file on a closed terminal), [main]
    raises that error, having done nothing but prompt. *)
Theorem main_prompt_error_escapes
    (w : World) (a : Args) (tr : trace) (e : exn) :
  interactive a || falsy (theme a) = true ->
  input w = Raise e ->
  main w a tr = (Raise e, tr ++ [EvInput]).
Proof.
  intros Hi Hl. unfold main. rewrite Hi.
  unfold callT, emitT, bind, modify, lift. rewrite Hl. reflexivity.
Qed.

Lemma main_prompt_error_escapes_witness :
  interactive (cli None) || falsy (theme (cli None)) = true
  /\ input closed_stdin = Raise (Exn EOFError (lit "EOF when reading a line"))
  /\ main closed_stdin (cli None) []
     = (Raise (Exn EOFError (lit "EOF when reading a line")), [] ++ [EvInput]).
Proof.
  split; [reflexivity|]. split; [reflexivity|].
  apply (@main_prompt_error_escapes closed_stdin (cli None) []); reflexivity.
Defined.



(* ================================================================== *)
(** ** The demo branch, query by query *)

Lemma no_token_is_blank (q : pystr) :
  has_token q = false -> forallb isspace q = true.
Proof.
  induction q as [|c q IH]; cbn; [reflexivity|].
  intros H. apply orb_false_iff in H. destruct H as [Hc Hq].
  apply negb_false_iff in Hc. rewrite Hc. apply IH, Hq.
Qed.

(** [_get_demo_response] in closed form: the substituted template for a
    query that is empty or holds a word, IndexError for a query of
    whitespace only. *)
Lemma demo_response_cases (q : pystr) :
  _get_demo_response q
  = if negb (truthy q) || has_token q
    then Return (replace (lit "[topic]") (topic_of q) demo_default)
    else Raise (Exn IndexError (lit "list index out of range")).
Proof.
  destruct q as [|c q']; [reflexivity|].
  cbn [truthy negb orb].
  destruct (has_token (c :: q')) eqn:Ht.
  - unfold _get_demo_response, topic_of, split, index0. cbn [truthy].
    destruct (split_from [] (c :: q')) as [|t l] eqn:E; [|reflexivity].
    exfalso. revert E. apply split_from_nonempty. right. exact Ht.
  - unfold _get_demo_response, split. cbn [truthy].
    rewrite (split_from_spaces _ (no_token_is_blank _ Ht)). reflexivity.
Qed.

(** C2 (evaluation at the failing input, and everywhere else).
    Whatever happened during construction, [_openai_client] is still
    [None] afterwards, so [_run] always takes the demo branch and leaves
    the tool and the trace as they were.  For a query that is empty or
    holds a word it returns the substituted template; for a query of
    whitespace only, such as two spaces, it returns nothing: IndexError
    is raised. *)
Theorem run_takes_demo_branch (w : World) (tr : trace) (q : pystr) (n : Z) :
  let st := snd (__init__ w tr) in
  _openai_client (fst st) = None
  /\ _run w q n st
     = (if negb (truthy q) || has_token q
        then Return (replace (lit "[topic]") (topic_of q) demo_default)
        else Raise (Exn IndexError (lit "list index out of range")),
        st)
  /\ _run w (lit "  ") n st
     = (Raise (Exn IndexError (lit "list index out of range")), st).
Proof.
  cbn zeta. split; [apply init_openai_client|]. split.
  - rewrite run_without_client by apply init_openai_client.
    rewrite demo_response_cases. reflexivity.
  - rewrite run_without_client by apply init_openai_client. reflexivity.
Qed.

(** C7 (evaluation at the failing input, and everywhere else).  If any
    step of the connection setup raises, the constructor still returns
    normally, having printed the warning with the error and the
    demo-mode notice, and no later call reaches the cluster again: the
    tool and the trace stay as they were.  Each call on a query that is
    empty or holds a word returns the substituted template; a call on a
    query of whitespace only raises IndexError. *)
Theorem failed_setup_stays_in_demo_branch
    (w : World) (tr : trace) (e : exn) (calls : list (pystr * Z)) :
  fst (connect w (fresh_tool, tr)) = Raise e ->
  fst (__init__ w tr) = Return tt
  /\ (exists tr',
        snd (snd (__init__ w tr))
        = tr' ++ [EvPrint (lit "Warning: Could not initialize Couchbase connection: "
                           ++ exn_str e);
                  EvPrint (lit "The tool will operate in demo mode with sample responses.")])
  /\ run_calls w calls (snd (__init__ w tr))
     = (List.map
          (fun c =>
             if negb (truthy (fst c)) || has_token (fst c)
             then Return (replace (lit "[topic]") (topic_of (fst c)) demo_default)
             else Raise (Exn IndexError (lit "list index out of range")))
          calls,
        snd (__init__ w tr)).
Proof.
  intros H. split; [|split].
  - apply init_returns.
  - rewrite (init_after_failure w tr H). cbn [snd]. eexists. reflexivity.
  - rewrite run_calls_without_client by apply init_openai_client.
    f_equal. apply map_ext. intros c. apply demo_response_cases.
Qed.

Lemma failed_setup_stays_in_demo_branch_witness :
  fst (connect offline (fresh_tool, []))
    = Raise (Exn OtherException (lit "unambiguous timeout"))
  /\ (fst (__init__ offline []) = Return tt
      /\ (exists tr',
            snd (snd (__init__ offline []))
            = tr' ++ [EvPrint (lit "Warning: Could not initialize Couchbase connection: "
                               ++ exn_str (Exn OtherException (lit "unambiguous timeout")));
                      EvPrint (lit "The tool will operate in demo mode with sample responses.")])
      /\ run_calls offline [(lit "George at work", 5%Z); (lit "  ", 3%Z)]
           (snd (__init__ offline []))
         = ([Return (replace (lit "[topic]") (lit "George") demo_default);
             Raise (Exn IndexError (lit "list index out of range"))],
            snd (__init__ offline []))).
Proof.
  split; [reflexivity|].
  apply (@failed_setup_stays_in_demo_branch offline []
           (Exn OtherException (lit "unambiguous timeout"))
           [(lit "George at work", 5%Z); (lit "  ", 3%Z)]).
  reflexivity.
Defined.



(* ================================================================== *)
(** ** The formatted response, hit by hit *)


